(** * SU2Run: running SU2 calculations from CEASIOMpy

    A shallow embedding of [ceasiompy/SU2Run/su2run.py] and the properties of
    its three run functions ([run_SU2_single], [run_SU2_multi],
    [run_SU2_fsi]) and of its command-line entry point.

    The module is glue code over the operating system and over helpers that
    live in other modules of the package.  It is modelled as a state and
    exception monad over a [world]: the file-system entries, the current
    working directory of the process, and the chronological [trace] of the
    actions performed on the outside (directory changes, configuration reads
    and writes, invocations of executables and of sibling modules). *)

From Stdlib Require Import ZArith Floats Ascii.
From stdpp Require Import base gmap strings list.

(** ** Configuration dictionaries *)

(** The values the module stores in a configuration dictionary: a string, a
    list of strings, or a Python float. *)
Inductive cfg_value : Type :=
  | VStr (s : string)
  | VList (l : list string)
  | VFloat (x : float).

Abbreviation config := (gmap string cfg_value).

(** ** The outside world *)

(** An entry of the file system: a directory with what [os.listdir] returns
    for it, or a file, represented by the dictionary [su2f.read_config]
    parses from it.  The entries are kept under their canonical names: two
    spellings of one entry lead to one key. *)
Inductive node : Type :=
  | Dir (entries : list string)
  | File (content : config).

Abbreviation filesystem := (gmap string node).

Inductive event : Type :=
  | Chdir (path : string)
  | ReadConfig (path : string)
  | WriteConfig (path : string) (cfg : config)
  | Exec (soft config_path wkdir : string)
  | ExtractLoads (wkdir : string)
  | OpenTixi (cpacs_path : string)
  | GetWkdir (tixi : string)
  | GenerateConfig (cpacs_path cpacs_out_path wkdir : string)
  | GetResults (cpacs_path cpacs_out_path wkdir : string).

(** The world: the entries of the file system, how the file system leads
    from an absolute path to the canonical name of its entry ([canon]: the
    [.] and [..] taken out, the links followed), the current directory of the
    process under its canonical name, as [os.getcwd] returns it, the trace,
    the log and the standard output. *)
Record world : Type := World {
  nodes : filesystem;
  canon : string → string;
  cwd : string;
  trace : list event;
  log : list string;
  stdout : list string
}.

Definition emit (e : event) (w : world) : world :=
  World (nodes w) (canon w) (cwd w) (trace w ++ [e]) (log w) (stdout w).

Definition set_nodes (fs : filesystem) (w : world) : world :=
  World fs (canon w) (cwd w) (trace w) (log w) (stdout w).

Definition set_cwd (p : string) (w : world) : world :=
  World (nodes w) (canon w) p (trace w) (log w) (stdout w).

(** ** Exceptions, results and the monad *)

Inductive exn : Type :=
  | OSError (msg : string)
  | ValueError (msg : string)
  | FileNotFoundError (path : string)
  | NotADirectoryError (path : string)
  | IsADirectoryError (path : string)
  | IndexError
  | UnboundLocalError (var : string).

Inductive result (A : Type) : Type :=
  | Ok (a : A)
  | Raise (e : exn).
Arguments Ok {A} a.
Arguments Raise {A} e.

Definition M (A : Type) : Type := world → result A * world.

#[global] Instance M_ret : MRet M := λ A a w, (Ok a, w).

#[global] Instance M_bind : MBind M := λ A B f m w,
  match m w with
  | (Ok a, w') => f a w'
  | (Raise e, w') => (Raise e, w')
  end.

Definition raise {A : Type} (e : exn) : M A := λ w, (Raise e, w).

(** [if c: raise e] *)
Definition raise_if (c : bool) (e : exn) : M unit :=
  if c then raise e else mret tt.

(** [for x in l: body], threading the local variables [s] of the function. *)
Fixpoint for_ {A S : Type} (l : list A) (body : A → S → M S) (s : S) : M S :=
  match l with
  | [] => mret s
  | x :: l' => s' ← body x s; for_ l' body s'
  end.

(** ** Python and operating-system primitives *)

(** [sub in s] on strings. *)
Fixpoint str_in (sub s : string) : bool :=
  String.prefix sub s ||
  match s with
  | EmptyString => false
  | String _ s' => str_in sub s'
  end.

Definition ends_with_slash (a : string) : bool :=
  match String.rev a with
  | String "/"%char _ => true
  | _ => false
  end.

(** [os.path.join(a, b)] (posixpath). *)
Definition path_join (a b : string) : string :=
  if String.prefix "/" b then b
  else if bool_decide (a = "") || ends_with_slash a then a +:+ b
  else a +:+ "/" +:+ b.

(** The entry the path [p] names for a process whose current directory is
    [dir]: an absolute path is taken as it is, a relative one is taken from
    [dir]; the empty path, which names nothing, is left as it is. *)
Definition key_in (w : world) (dir p : string) : string :=
  canon w (if String.prefix "/" p then p
           else if decide (p = "") then ""
           else path_join dir p).

(** The entry the path [p] names in the world [w]. *)
Definition resolve (w : world) (p : string) : string := key_in w (cwd w) p.

Definition os_path_exists (p : string) : M bool := λ w,
  (Ok (bool_decide (is_Some (nodes w !! resolve w p))), w).

Definition os_getcwd : M string := λ w, (Ok (cwd w), w).

Definition os_chdir (p : string) : M unit := λ w,
  match nodes w !! resolve w p with
  | Some (Dir _) => (Ok tt, emit (Chdir p) (set_cwd (resolve w p) w))
  | Some (File _) => (Raise (NotADirectoryError p), w)
  | None => (Raise (FileNotFoundError p), w)
  end.

Definition os_listdir (p : string) : M (list string) := λ w,
  match nodes w !! resolve w p with
  | Some (Dir entries) => (Ok entries, w)
  | Some (File _) => (Raise (NotADirectoryError p), w)
  | None => (Raise (FileNotFoundError p), w)
  end.

Definition log_info (msg : string) : M unit := λ w,
  (Ok tt, World (nodes w) (canon w) (cwd w) (trace w) (log w ++ [msg]) (stdout w)).

Definition print (msg : string) : M unit := λ w,
  (Ok tt, World (nodes w) (canon w) (cwd w) (trace w) (log w) (stdout w ++ [msg])).

Definition dquote : string := String "034"%char EmptyString.

(** ** Helpers of other modules of the package *)

(** What the module takes from its surroundings: the directory and the name
    of the script, and the behaviour of the programs and sibling modules it
    calls.  An executable is given by the exit status it returns and by what
    it does to the file system, both depending on the software, the
    configuration file, the working directory, the directory of the process
    and the file system it runs in; a sibling module by what it does to the
    file system. *)
Record externals : Type := Externals {
  MODULE_DIR : string;
  FILE_BASENAME : string;
  soft_status : string → string → string → string → filesystem → Z;
  soft_effect : string → string → string → string → filesystem → filesystem;
  extract_loads_effect : string → string → filesystem → filesystem;
  wkdir_or_new : string → filesystem → string * filesystem;
  generate_effect : string → string → string → filesystem → filesystem;
  results_effect : string → string → string → filesystem → filesystem
}.

(** Modelled from the spec: [su2f.run_soft] of [ceasiompy.utils.su2functions],
    which "invoke[s] external executables": it runs the software [soft] on
    the configuration file and yields the status of the subprocess. *)
Definition after_soft (ext : externals) (soft config_path wkdir : string)
    (w : world) : world :=
  emit (Exec soft config_path wkdir)
    (set_nodes (soft_effect ext soft config_path wkdir (cwd w) (nodes w)) w).

Definition run_soft (ext : externals) (soft config_path wkdir : string) : M Z :=
  λ w,
  (Ok (soft_status ext soft config_path wkdir (cwd w) (nodes w)),
   after_soft ext soft config_path wkdir w).

(** Modelled from the spec: [su2f.read_config] of
    [ceasiompy.utils.su2functions], the reader of the "text configuration
    format" of "key/value pairs": it returns the dictionary of the file. *)
Definition read_config (config_path : string) : M config := λ w,
  match nodes w !! resolve w config_path with
  | Some (File cfg) => (Ok cfg, emit (ReadConfig config_path) w)
  | Some (Dir _) => (Raise (IsADirectoryError config_path), w)
  | None => (Raise (FileNotFoundError config_path), w)
  end.

(** Modelled from the spec: [su2f.write_config] of
    [ceasiompy.utils.su2functions], the writer of the same format: the file
    at [config_path] becomes the one that holds the dictionary. *)
Definition write_config (config_path : string) (cfg : config) : M unit := λ w,
  match nodes w !! resolve w config_path with
  | Some (Dir _) => (Raise (IsADirectoryError config_path), w)
  | _ => (Ok tt, emit (WriteConfig config_path cfg)
                   (set_nodes (<[resolve w config_path := File cfg]> (nodes w)) w))
  end.

(** Modelled from the spec: [extract_loads] of
    [ceasiompy.SU2Run.func.extractloads], the "result-extraction" of the FSI
    run, delegated to a sibling module. *)
Definition extract_loads (ext : externals) (wkdir : string) : M unit := λ w,
  (Ok tt, emit (ExtractLoads wkdir)
            (set_nodes (extract_loads_effect ext wkdir (cwd w) (nodes w)) w)).

(** Modelled from the spec: [cpsf.open_tixi] of
    [ceasiompy.utils.cpacsfunctions]; the handle is the path it was opened
    from. *)
Definition open_tixi (cpacs_path : string) : M string := λ w,
  (Ok cpacs_path, emit (OpenTixi cpacs_path) w).

(** Modelled from the spec: [ceaf.get_wkdir_or_create_new] of
    [ceasiompy.utils.ceasiompyfunctions], which yields the working
    directory, creating it when needed. *)
Definition get_wkdir_or_create_new (ext : externals) (tixi : string) : M string :=
  λ w,
  let '(wkdir, fs) := wkdir_or_new ext tixi (nodes w) in
  (Ok wkdir, emit (GetWkdir tixi) (set_nodes fs w)).

(** Modelled from the spec: [generate_su2_config] of
    [ceasiompy.SU2Run.func.su2config], the configuration generation. *)
Definition generate_su2_config (ext : externals)
    (cpacs_path cpacs_out_path wkdir : string) : M unit := λ w,
  (Ok tt, emit (GenerateConfig cpacs_path cpacs_out_path wkdir)
            (set_nodes (generate_effect ext cpacs_path cpacs_out_path wkdir (nodes w)) w)).

(** Modelled from the spec: [get_su2_results] of
    [ceasiompy.SU2Run.func.su2results], the "result-extraction" delegated to
    a sibling module. *)
Definition get_su2_results (ext : externals)
    (cpacs_path cpacs_out_path wkdir : string) : M unit := λ w,
  (Ok tt, emit (GetResults cpacs_path cpacs_out_path wkdir)
            (set_nodes (results_effect ext cpacs_path cpacs_out_path wkdir (nodes w)) w)).

(** ** The run functions *)

Definition wkdir_missing (wkdir : string) : exn :=
  OSError ("The working directory : " +:+ wkdir +:+ "does not exit!").

Definition run_SU2_single (ext : externals) (config_path wkdir : string) : M unit :=
  found ← os_path_exists wkdir;
  raise_if (negb found) (wkdir_missing wkdir);;
  original_dir ← os_getcwd;
  os_chdir wkdir;;
  run_soft ext "SU2_CFD" config_path wkdir;;
  run_soft ext "SU2_SOL" config_path wkdir;;
  os_chdir original_dir.

(** The local variables of [run_SU2_multi] that its loops assign. *)
Record locals : Type := Locals {
  find_config_cfd : bool;
  find_config_def : bool;
  find_config_rot : bool;
  find_config_rot_sym : bool;
  config_cfd_path : option string;
  config_def_path : option string;
  config_rot_path : option string;
  config_rot_sym_path : option string
}.

Definition no_locals : locals :=
  Locals false false false false None None None None.

(** The four [find_config_... = False] at the head of the loop body. *)
Definition reset_flags (v : locals) : locals :=
  Locals false false false false
    (config_cfd_path v) (config_def_path v) (config_rot_path v) (config_rot_sym_path v).

Definition set_cfd (p : string) (v : locals) : locals :=
  Locals true (find_config_def v) (find_config_rot v) (find_config_rot_sym v)
    (Some p) (config_def_path v) (config_rot_path v) (config_rot_sym_path v).

Definition set_def (p : string) (v : locals) : locals :=
  Locals (find_config_cfd v) true (find_config_rot v) (find_config_rot_sym v)
    (config_cfd_path v) (Some p) (config_rot_path v) (config_rot_sym_path v).

Definition set_rot (p : string) (v : locals) : locals :=
  Locals (find_config_cfd v) (find_config_def v) true (find_config_rot_sym v)
    (config_cfd_path v) (config_def_path v) (Some p) (config_rot_sym_path v).

Definition set_rot_sym (p : string) (v : locals) : locals :=
  Locals (find_config_cfd v) (find_config_def v) (find_config_rot v) true
    (config_cfd_path v) (config_def_path v) (config_rot_path v) (Some p).

(** Reading a local variable that may not have been assigned. *)
Definition local_var (name : string) (x : option string) : M string :=
  match x with
  | Some p => mret p
  | None => raise (UnboundLocalError name)
  end.

Definition more_than_one (name : string) : exn :=
  ValueError ("More than one " +:+ dquote +:+ name +:+ dquote
              +:+ " file in this directory!").

Definition no_config_cfd : exn :=
  ValueError ("No " +:+ dquote +:+ "ConfigCFD.cfg" +:+ dquote
              +:+ " file has been found in this directory!").

(** One of the four [if file == name:] blocks of the inner loop. *)
Definition check_name (name : string) (found : locals → bool)
    (set : string → locals → locals) (config_dir file : string) (v : locals)
    : M locals :=
  if decide (file = name) then
    raise_if (found v) (more_than_one name);;
    mret (set (path_join config_dir file) v)
  else mret v.

(** The body of [for file in os.listdir(config_dir)]. *)
Definition scan_file (config_dir file : string) (v : locals) : M locals :=
  v ← check_name "ConfigCFD.cfg" find_config_cfd set_cfd config_dir file v;
  v ← check_name "ConfigDEF.cfg" find_config_def set_def config_dir file v;
  v ← check_name "ConfigDEF_rot.cfg" find_config_rot set_rot config_dir file v;
  check_name "ConfigDEF_rot_sym.cfg" find_config_rot_sym set_rot_sym config_dir file v.

(** [if found: su2f.run_soft('SU2_DEF', path, config_dir)] *)
Definition run_def_if (ext : externals) (found : bool) (name : string)
    (path : option string) (config_dir : string) : M unit :=
  if found then
    p ← local_var name path;
    run_soft ext "SU2_DEF" p config_dir;;
    mret tt
  else mret tt.

(** The body of [for dir in case_dir_list]. *)
Definition run_case (ext : externals) (wkdir dir : string) (v : locals) : M locals :=
  let config_dir := path_join wkdir dir in
  os_chdir config_dir;;
  let v := reset_flags v in
  files ← os_listdir config_dir;
  v ← for_ files (scan_file config_dir) v;
  run_def_if ext (find_config_def v) "config_def_path" (config_def_path v) config_dir;;
  run_def_if ext (find_config_rot v) "config_rot_path" (config_rot_path v) config_dir;;
  run_def_if ext (find_config_rot_sym v) "config_rot_sym_path"
    (config_rot_sym_path v) config_dir;;
  raise_if (negb (find_config_cfd v)) no_config_cfd;;
  p ← local_var "config_cfd_path" (config_cfd_path v);
  run_soft ext "SU2_CFD" p config_dir;;
  os_chdir wkdir;;
  mret v.

(** [[dir for dir in entries if 'Case' in dir]] *)
Definition case_dirs (entries : list string) : list string :=
  List.filter (str_in "Case") entries.

Definition no_case_dir (wkdir : string) : exn :=
  OSError ("No folder has been found in the working directory: " +:+ wkdir).

Definition run_SU2_multi (ext : externals) (wkdir : string) : M unit :=
  found ← os_path_exists wkdir;
  raise_if (negb found) (wkdir_missing wkdir);;
  original_dir ← os_getcwd;
  os_chdir wkdir;;
  entries ← os_listdir wkdir;
  let case_dir_list := case_dirs entries in
  raise_if (bool_decide (case_dir_list = [])) (no_case_dir wkdir);;
  for_ case_dir_list (run_case ext wkdir) no_locals;;
  mret tt.

#[warnings="-inexact-float"]
Definition cfg_for_def (cfg : config) : config :=
  <["DV_VALUE" := VFloat 0.01]>
    (<["DV_PARAM" := VList ["WING"; "0"; "0"; "1"; "0.0"; "0.0"; "1.0"]]>
      (<["DV_FILENAME" := VStr "disp.dat"]>
        (<["DV_MARKER" := VStr "Wing"]>
          (<["DV_KIND" := VStr "SURFACE_FILE"]> cfg)))).

Definition cfg_for_cfd (cfg : config) : config :=
  <["MESH_FILENAME" := VStr "mesh_out.su2"]> cfg.

Definition run_SU2_fsi (ext : externals) (config_path wkdir : string) : M unit :=
  found ← os_path_exists wkdir;
  raise_if (negb found) (wkdir_missing wkdir);;
  original_dir ← os_getcwd;
  os_chdir wkdir;;
  let config_def_path := path_join wkdir "ConfigDEF.cfg" in
  cfg_def ← read_config config_path;
  write_config config_def_path (cfg_for_def cfg_def);;
  let config_cfd_path := path_join wkdir "ConfigCFD.cfg" in
  cfg_cfd ← read_config config_path;
  write_config config_cfd_path (cfg_for_cfd cfg_cfd);;
  run_soft ext "SU2_DEF" config_def_path wkdir;;
  run_soft ext "SU2_CFD" config_cfd_path wkdir;;
  run_soft ext "SU2_SOL" config_cfd_path wkdir;;
  extract_loads ext wkdir;;
  os_chdir original_dir.

(** ** The entry point *)

(** [sys.argv[i]] *)
Definition argv_get (argv : list string) (i : nat) : M string :=
  match argv !! i with
  | Some a => mret a
  | None => raise IndexError
  end.

Definition main (ext : externals) (argv : list string) : M unit :=
  log_info ("----- Start of " +:+ FILE_BASENAME ext +:+ " -----");;
  let cpacs_path := path_join (path_join (MODULE_DIR ext) "ToolInput") "ToolInput.xml" in
  let cpacs_out_path := path_join (path_join (MODULE_DIR ext) "ToolOutput") "ToolOutput.xml" in
  tixi ← open_tixi cpacs_path;
  (if bool_decide (1 < length argv) then
     a1 ← argv_get argv 1;
     if decide (a1 = "-c") then
       wkdir ← get_wkdir_or_create_new ext tixi;
       generate_su2_config ext cpacs_path cpacs_out_path wkdir
     else if decide (a1 = "-s") then
       a2 ← argv_get argv 2;
       let wkdir := path_join (MODULE_DIR ext) a2 in
       let config_path := path_join wkdir "ConfigCFD.cfg" in
       run_SU2_single ext config_path wkdir
     else if decide (a1 = "-m") then
       a2 ← argv_get argv 2;
       let wkdir := path_join (MODULE_DIR ext) a2 in
       run_SU2_multi ext wkdir
     else if decide (a1 = "-f") then
       a2 ← argv_get argv 2;
       let wkdir := path_join (MODULE_DIR ext) a2 in
       let config_path := path_join wkdir "ConfigCFD.cfg" in
       run_SU2_fsi ext config_path wkdir
     else if decide (a1 = "-r") then
       a2 ← argv_get argv 2;
       let wkdir := path_join (MODULE_DIR ext) a2 in
       get_su2_results ext cpacs_path cpacs_out_path wkdir
     else print "This arugment is not a valid option!"
   else
     wkdir ← get_wkdir_or_create_new ext tixi;
     generate_su2_config ext cpacs_path cpacs_out_path wkdir;;
     run_SU2_multi ext wkdir;;
     get_su2_results ext cpacs_path cpacs_out_path wkdir);;
  log_info ("----- End of " +:+ FILE_BASENAME ext +:+ " -----").

(** ** Reading traces *)

(** The executables invoked, in order: software, configuration file and
    working directory of each [su2f.run_soft]. *)
Definition executables (t : list event) : list (string * string * string) :=
  omap (λ e, match e with
             | Exec soft config_path wkdir => Some (soft, config_path, wkdir)
             | _ => None
             end) t.

(** The configuration files written, in order. *)
Definition writes (t : list event) : list (string * config) :=
  omap (λ e, match e with
             | WriteConfig path cfg => Some (path, cfg)
             | _ => None
             end) t.

(** The calls that leave the module: executables and result extraction. *)
Definition outside_calls (t : list event) : list event :=
  List.filter (λ e, match e with
                    | Exec _ _ _ | ExtractLoads _ | GenerateConfig _ _ _
                    | GetResults _ _ _ => true
                    | _ => false
                    end) t.

(** ** What the properties are stated with *)

(** The names [run_SU2_multi] looks for. *)
Definition config_names : list string :=
  ["ConfigCFD.cfg"; "ConfigDEF.cfg"; "ConfigDEF_rot.cfg"; "ConfigDEF_rot_sym.cfg"].

(** The [find_config_...] flag and the [config_..._path] variable that belong
    to a file name. *)
Definition flag (name : string) (v : locals) : bool :=
  if decide (name = "ConfigCFD.cfg") then find_config_cfd v
  else if decide (name = "ConfigDEF.cfg") then find_config_def v
  else if decide (name = "ConfigDEF_rot.cfg") then find_config_rot v
  else if decide (name = "ConfigDEF_rot_sym.cfg") then find_config_rot_sym v
  else false.

Definition path_var (name : string) (v : locals) : option string :=
  if decide (name = "ConfigCFD.cfg") then config_cfd_path v
  else if decide (name = "ConfigDEF.cfg") then config_def_path v
  else if decide (name = "ConfigDEF_rot.cfg") then config_rot_path v
  else if decide (name = "ConfigDEF_rot_sym.cfg") then config_rot_sym_path v
  else None.

(** [v'] is [v] after the block of [file] has run in [config_dir]. *)
Definition recorded (config_dir file : string) (v v' : locals) : Prop :=
  (∀ name, flag name v' = if decide (name = file) then true else flag name v)
  ∧ (∀ name, path_var name v' = if decide (name = file)
                                then Some (path_join config_dir file)
                                else path_var name v).

(** The world after [os.chdir(p)] has been done in [w]. *)
Definition entered (w : world) (p : string) : world :=
  emit (Chdir p) (set_cwd (resolve w p) w).

(** The entry [os.listdir(p)] reads once [os.chdir(p)] has been done in [w]:
    the one [os.chdir(p)] reached when [p] is absolute, the one [p] names
    from there otherwise. *)
Definition listing_key (w : world) (p : string) : string :=
  key_in w (resolve w p) p.

(** The entry the path [p] names once [os.chdir(dir)] has been done in [w]. *)
Definition from_dir (w : world) (dir p : string) : string :=
  key_in w (resolve w dir) p.

(** The name [os.getcwd] returns in [w] leads back to the current directory
    from every directory: it is an absolute path in canonical form. *)
Definition settled (w : world) : Prop :=
  ∀ dir, key_in w dir (cwd w) = cwd w.

Definition is_Raise {A : Type} (r : result A) : Prop :=
  match r with Raise _ => True | Ok _ => False end.

Definition is_dir (fs : filesystem) (p : string) : Prop :=
  ∃ entries, fs !! p = Some (Dir entries).

(** The world after [if found: su2f.run_soft('SU2_DEF', p, config_dir)]. *)
Definition after_def (ext : externals) (found : bool) (p config_dir : string)
    (w : world) : world :=
  if found then after_soft ext "SU2_DEF" p config_dir w else w.

(** The deformation runs of a case directory with the listing [files]. *)
Definition def_events (config_dir : string) (files : list string) : list event :=
  (if bool_decide ("ConfigDEF.cfg" ∈ files)
   then [Exec "SU2_DEF" (path_join config_dir "ConfigDEF.cfg") config_dir] else [])
  ++ (if bool_decide ("ConfigDEF_rot.cfg" ∈ files)
      then [Exec "SU2_DEF" (path_join config_dir "ConfigDEF_rot.cfg") config_dir] else [])
  ++ (if bool_decide ("ConfigDEF_rot_sym.cfg" ∈ files)
      then [Exec "SU2_DEF" (path_join config_dir "ConfigDEF_rot_sym.cfg") config_dir] else []).

Definition cfd_event (config_dir : string) : event :=
  Exec "SU2_CFD" (path_join config_dir "ConfigCFD.cfg") config_dir.

(** The calls made for the case directories [dirs] from the world [w] on, one
    directory after the other: the deformation runs of the directory for the
    listing it has when the loop reaches it, then its [SU2_CFD] run, and so on
    from the world the body of the loop leaves.  The loop may stop before a
    directory, or after the deformation runs of a directory without
    ["ConfigCFD.cfg"]. *)
Inductive case_blocks (ext : externals) (wkdir : string)
    : list string → world → list event → Prop :=
  | blocks_stop dirs w : case_blocks ext wkdir dirs w []
  | blocks_no_cfd dir dirs w files :
      is_dir (nodes w) (resolve w (path_join wkdir dir)) →
      nodes w !! listing_key w (path_join wkdir dir) = Some (Dir files) →
      "ConfigCFD.cfg" ∉ files →
      case_blocks ext wkdir (dir :: dirs) w (def_events (path_join wkdir dir) files)
  | blocks_case dir dirs w files v r1 w1 rest :
      is_dir (nodes w) (resolve w (path_join wkdir dir)) →
      nodes w !! listing_key w (path_join wkdir dir) = Some (Dir files) →
      "ConfigCFD.cfg" ∈ files →
      run_case ext wkdir dir v w = (r1, w1) →
      case_blocks ext wkdir dirs w1 rest →
      case_blocks ext wkdir (dir :: dirs) w
        (def_events (path_join wkdir dir) files
         ++ [cfd_event (path_join wkdir dir)] ++ rest).

Definition forget {A : Type} (r : result A) : result unit :=
  match r with Ok _ => Ok tt | Raise e => Raise e end.

(** The configuration [run_SU2_fsi], called in [w], reads the second time:
    the one it has just written when [config_path] names, from the working
    directory, the entry the generated ["ConfigDEF.cfg"] is written to,
    under whatever spelling; the one of the file otherwise. *)
Definition second_read (w : world) (config_path wkdir : string) (cfg : config)
    : config :=
  if decide (from_dir w wkdir config_path
             = from_dir w wkdir (path_join wkdir "ConfigDEF.cfg"))
  then cfg_for_def cfg else cfg.

(** What a complete FSI run does before it goes back to the directory it
    started in. *)
Definition fsi_events (w : world) (config_path wkdir : string) (cfg : config)
    : list event :=
  [ Chdir wkdir;
    ReadConfig config_path;
    WriteConfig (path_join wkdir "ConfigDEF.cfg") (cfg_for_def cfg);
    ReadConfig config_path;
    WriteConfig (path_join wkdir "ConfigCFD.cfg")
      (cfg_for_cfd (second_read w config_path wkdir cfg));
    Exec "SU2_DEF" (path_join wkdir "ConfigDEF.cfg") wkdir;
    Exec "SU2_CFD" (path_join wkdir "ConfigCFD.cfg") wkdir;
    Exec "SU2_SOL" (path_join wkdir "ConfigCFD.cfg") wkdir;
    ExtractLoads wkdir ].

(** The calls of a complete FSI run that leave the module. *)
Definition fsi_calls (wkdir : string) : list event :=
  [ Exec "SU2_DEF" (path_join wkdir "ConfigDEF.cfg") wkdir;
    Exec "SU2_CFD" (path_join wkdir "ConfigCFD.cfg") wkdir;
    Exec "SU2_SOL" (path_join wkdir "ConfigCFD.cfg") wkdir;
    ExtractLoads wkdir ].

(** [new] is [old] with exactly the keys of [updates] set to their values:
    every other key has the value it had, or none as before. *)
Definition changed_only (updates : list (string * cfg_value)) (old new : config)
    : Prop :=
  (∀ k v, (k, v) ∈ updates → new !! k = Some v)
  ∧ (∀ k, k ∉ updates.*1 → new !! k = old !! k).

#[warnings="-inexact-float"]
Definition def_updates : list (string * cfg_value) :=
  [ ("DV_KIND", VStr "SURFACE_FILE");
    ("DV_MARKER", VStr "Wing");
    ("DV_FILENAME", VStr "disp.dat");
    ("DV_PARAM", VList ["WING"; "0"; "0"; "1"; "0.0"; "0.0"; "1.0"]);
    ("DV_VALUE", VFloat 0.01) ].

Definition cfd_updates : list (string * cfg_value) :=
  [ ("MESH_FILENAME", VStr "mesh_out.su2") ].

(** The same helpers, with another exit status for the executables. *)
Definition with_status (status : string → string → string → string → filesystem → Z)
    (ext : externals) : externals :=
  Externals (MODULE_DIR ext) (FILE_BASENAME ext) status (soft_effect ext)
    (extract_loads_effect ext) (wkdir_or_new ext) (generate_effect ext)
    (results_effect ext).

(** The deformation files [run_SU2_multi] looks for. *)
Definition def_names : list string :=
  ["ConfigDEF.cfg"; "ConfigDEF_rot.cfg"; "ConfigDEF_rot_sym.cfg"].

(** The world after the three [if find_config_...: su2f.run_soft('SU2_DEF',
    ...)] of a case directory with the listing [files]. *)
Definition after_defs (ext : externals) (config_dir : string)
    (files : list string) (w : world) : world :=
  after_def ext (bool_decide ("ConfigDEF_rot_sym.cfg" ∈ files))
    (path_join config_dir "ConfigDEF_rot_sym.cfg") config_dir
    (after_def ext (bool_decide ("ConfigDEF_rot.cfg" ∈ files))
       (path_join config_dir "ConfigDEF_rot.cfg") config_dir
       (after_def ext (bool_decide ("ConfigDEF.cfg" ∈ files))
          (path_join config_dir "ConfigDEF.cfg") config_dir w)).

(** The [SU2_CFD] runs of a trace, in order. *)
Definition cfd_runs (t : list event) : list event :=
  List.filter (λ e, match e with
                    | Exec soft _ _ => bool_decide (soft = "SU2_CFD")
                    | _ => false
                    end) t.

(** The exceptions [run_SU2_multi] raises itself or gets from [os.chdir] and
    [os.listdir], for the working directory or for a case directory. *)
Inductive multi_error (wkdir : string) (dirs : list string) : exn → Prop :=
  | error_wkdir_missing : multi_error wkdir dirs (wkdir_missing wkdir)
  | error_wkdir_file : multi_error wkdir dirs (NotADirectoryError wkdir)
  | error_wkdir_gone : multi_error wkdir dirs (FileNotFoundError wkdir)
  | error_no_case_dir : dirs = [] → multi_error wkdir dirs (no_case_dir wkdir)
  | error_case_file dir :
      dir ∈ dirs → multi_error wkdir dirs (NotADirectoryError (path_join wkdir dir))
  | error_case_gone dir :
      dir ∈ dirs → multi_error wkdir dirs (FileNotFoundError (path_join wkdir dir))
  | error_more_than_one name :
      name ∈ config_names → multi_error wkdir dirs (more_than_one name)
  | error_no_config_cfd : dirs ≠ [] → multi_error wkdir dirs no_config_cfd.

(** What [run_SU2_multi] does to the outside for the case directories
    [dirs] of [wkdir]: it changes directory, and it runs [SU2_DEF] and
    [SU2_CFD] in a case directory on a configuration file of that directory. *)
Inductive multi_event (wkdir : string) (dirs : list string) : event → Prop :=
  | event_chdir_wkdir : multi_event wkdir dirs (Chdir wkdir)
  | event_chdir_case dir :
      dir ∈ dirs → multi_event wkdir dirs (Chdir (path_join wkdir dir))
  | event_def dir name :
      dir ∈ dirs → name ∈ def_names →
      multi_event wkdir dirs
        (Exec "SU2_DEF" (path_join (path_join wkdir dir) name) (path_join wkdir dir))
  | event_cfd dir :
      dir ∈ dirs → multi_event wkdir dirs (cfd_event (path_join wkdir dir)).

(** With [names] leading from an absolute path to the name of its entry,
    the working directory is there, and each of the case directories [dirs]
    is a directory that lists ["ConfigCFD.cfg"], no name twice. *)
Definition ready (names : string → string) (wkdir : string) (dirs : list string)
    (fs : filesystem) : Prop :=
  is_dir fs (names wkdir)
  ∧ ∀ dir, dir ∈ dirs →
      ∃ files, fs !! names (path_join wkdir dir) = Some (Dir files)
               ∧ NoDup files ∧ "ConfigCFD.cfg" ∈ files.

(** The executables leave the case directories ready. *)
Definition keeps_ready (ext : externals) (names : string → string)
    (wkdir : string) (dirs : list string) : Prop :=
  ∀ soft config_path dir cwd fs,
    ready names wkdir dirs fs →
    ready names wkdir dirs (soft_effect ext soft config_path dir cwd fs).

(** The CPACS files of the module and the two lines of its log. *)
Definition cpacs_path (ext : externals) : string :=
  path_join (path_join (MODULE_DIR ext) "ToolInput") "ToolInput.xml".

Definition cpacs_out_path (ext : externals) : string :=
  path_join (path_join (MODULE_DIR ext) "ToolOutput") "ToolOutput.xml".

Definition start_message (ext : externals) : string :=
  "----- Start of " +:+ FILE_BASENAME ext +:+ " -----".

Definition end_message (ext : externals) : string :=
  "----- End of " +:+ FILE_BASENAME ext +:+ " -----".

(** ** Worlds to run the functions in *)

Module Demo.

(** Executables that succeed and leave the file system alone. *)
Definition quiet : externals :=
  Externals "/opt/SU2Run" "su2run.py"
    (λ _ _ _ _ _, 0%Z) (λ _ _ _ _ fs, fs) (λ _ _ fs, fs)
    (λ _ fs, ("/w", fs)) (λ _ _ _ fs, fs) (λ _ _ _ fs, fs).

(** The same, with every executable failing with status 1. *)
Definition failing : externals :=
  Externals "/opt/SU2Run" "su2run.py"
    (λ _ _ _ _ _, 1%Z) (λ _ _ _ _ fs, fs) (λ _ _ fs, fs)
    (λ _ fs, ("/w", fs)) (λ _ _ _ fs, fs) (λ _ _ _ fs, fs).

(** The quiet helpers, with ["/w2"] for working directory. *)
Definition to_w2 : externals :=
  Externals "/opt/SU2Run" "su2run.py"
    (λ _ _ _ _ _, 0%Z) (λ _ _ _ _ fs, fs) (λ _ _ fs, fs)
    (λ _ fs, ("/w2", fs)) (λ _ _ _ fs, fs) (λ _ _ _ fs, fs).

Definition cfg0 : config := {[ "MESH_FILENAME" := VStr "mesh.su2" ]}.

Definition fs0 : filesystem :=
  list_to_map
    [ ("/home", Dir ["w"]);
      ("/w", Dir ["Case00_alt0_mach0.3"; "notes.txt"; "Case01_alt0_mach0.5"]);
      ("/w/Case00_alt0_mach0.3", Dir ["ConfigCFD.cfg"; "ConfigDEF.cfg"; "mesh.su2"]);
      ("/w/Case01_alt0_mach0.5", Dir ["ConfigDEF_rot.cfg"; "ConfigDEF.cfg"]);
      ("/w/Case00_alt0_mach0.3/ConfigCFD.cfg", File cfg0);
      ("/w/ConfigCFD.cfg", File cfg0);
      ("/w/ConfigDEF.cfg", File cfg0);
      ("/w2", Dir ["Case0"]);
      ("/w2/Case0", Dir ["ConfigCFD.cfg"]) ].

(** The components of a path, between its slashes. *)
Fixpoint components (p : string) : list string :=
  match p with
  | EmptyString => [EmptyString]
  | String c p' =>
      match components p' with
      | [] => []
      | x :: xs => if Ascii.eqb c "/" then EmptyString :: x :: xs
                   else String c x :: xs
      end
  end.

(** One more component on the way down from the root, the components gone
    through so far in reverse order. *)
Definition walk (above : list string) (c : string) : list string :=
  if decide (c = "") then above
  else if decide (c = ".") then above
  else if decide (c = "..") then tail above
  else c :: above.

(** A file system without links: an absolute path leads to the entry named
    by its components, the empty ones and [.] passed over and [..] leading
    one up; any other path leads nowhere. *)
Definition plain (p : string) : string :=
  if String.prefix "/" p then
    match rev (fold_left walk (components p) []) with
    | [] => "/"
    | cs => fold_right (λ c rest, "/" +:+ c +:+ rest) "" cs
    end
  else p.

Definition w0 : world := World fs0 plain "/home" [] [] [].

(** The quiet helpers, for a script that lies in the root directory. *)
Definition in_root : externals :=
  Externals "/" "su2run.py"
    (λ _ _ _ _ _, 0%Z) (λ _ _ _ _ fs, fs) (λ _ _ fs, fs)
    (λ _ fs, ("/w", fs)) (λ _ _ _ fs, fs) (λ _ _ _ fs, fs).

(** A world with a listing that names a file twice, as no directory does. *)
Definition w3 : world :=
  World (<["/w3/Case0" := Dir ["mesh.su2"; "ConfigDEF.cfg"; "ConfigCFD.cfg";
                               "ConfigDEF.cfg"]]> fs0) plain "/home" [] [] [].

(** A file system in which the relative path ["w"] leads somewhere from
    ["/home"], from ["/home/w"] and from the case directory below. *)
Definition fs_nested : filesystem :=
  list_to_map
    [ ("/home", Dir ["w"]);
      ("/home/w", Dir ["w"]);
      ("/home/w/w", Dir ["Case0"]);
      ("/home/w/w/Case0", Dir ["w"]);
      ("/home/w/w/Case0/w", Dir ["Case0"]);
      ("/home/w/w/Case0/w/Case0", Dir ["ConfigCFD.cfg"]);
      ("/home/w/w/Case0/w/Case0/ConfigCFD.cfg", File cfg0) ].

Definition w_nested : world := World fs_nested plain "/home" [] [] [].

(** A world in which the relative path ["w2"] names a working directory as
    [Demo.w0] has in ["/w2"]. *)
Definition w_rel : world :=
  World (list_to_map [ ("/home", Dir ["w2"]);
                       ("/home/w2", Dir ["Case0"]);
                       ("/home/w2/Case0", Dir ["ConfigCFD.cfg"]);
                       ("/home/w2/Case0/ConfigCFD.cfg", File cfg0) ])
    plain "/home" [] [] [].

End Demo.

(** ** Facts about the monad *)

Section monad_facts.
Context {A B : Type}.
Implicit Types (m : M A) (f : A → M B).

Lemma bind_unfold m f w :
  (m ≫= f) w = match m w with
               | (Ok a, w') => f a w'
               | (Raise e, w') => (Raise e, w')
               end.
Proof. reflexivity. Qed.

Lemma bind_Ok m f w a w1 : m w = (Ok a, w1) → (m ≫= f) w = f a w1.
Proof. intros H. rewrite bind_unfold, H. reflexivity. Qed.

Lemma bind_Raise m f w e w1 : m w = (Raise e, w1) → (m ≫= f) w = (Raise e, w1).
Proof. intros H. rewrite bind_unfold, H. reflexivity. Qed.

Lemma bind_Ok_inv m f w b w' :
  (m ≫= f) w = (Ok b, w') → ∃ a w1, m w = (Ok a, w1) ∧ f a w1 = (Ok b, w').
Proof.
  rewrite bind_unfold. destruct (m w) as [[a|e] w1]; [eauto | discriminate].
Qed.
End monad_facts.

Lemma bind_assoc {A B C} (m : M A) (f : A → M B) (g : B → M C) w :
  ((m ≫= f) ≫= g) w = (m ≫= λ a, f a ≫= g) w.
Proof. rewrite !bind_unfold. destruct (m w) as [[a|e] w1]; reflexivity. Qed.

Lemma raise_if_Ok c e w w' : raise_if c e w = (Ok tt, w') → c = false ∧ w' = w.
Proof. destruct c; cbn; [discriminate | by intros [= <-]]. Qed.

(** ** Facts about paths *)

Lemma prefix_app sub s : String.prefix sub s = true ↔ ∃ b, s = sub +:+ b.
Proof.
  revert s. induction sub as [|c sub IH]; intros s.
  - split; [intros _; by exists s | by destruct s].
  - destruct s as [|c' s]; cbn.
    + split; [done | by intros [b [=]]].
    + destruct (ascii_dec c c') as [->|Hne].
      * rewrite IH. split; intros [b Hb]; exists b; [by rewrite Hb | by injection Hb].
      * split; [done | intros [b [=]]; done].
Qed.

Lemma key_in_abs w dir p :
  String.prefix "/" p = true → key_in w dir p = canon w p.
Proof. intros H. unfold key_in. by rewrite H. Qed.

Lemma path_join_abs a b :
  String.prefix "/" a = true → String.prefix "/" (path_join a b) = true.
Proof.
  intros [a' ->]%prefix_app. unfold path_join.
  destruct (String.prefix "/" b) eqn:Hb; [done|].
  destruct (_ || _); apply prefix_app; by eexists.
Qed.

Lemma resolve_abs w p : String.prefix "/" p = true → resolve w p = canon w p.
Proof. apply key_in_abs. Qed.

Lemma listing_key_abs w p :
  String.prefix "/" p = true → listing_key w p = canon w p.
Proof. apply key_in_abs. Qed.

Lemma trace_entered w p : trace (entered w p) = trace w ++ [Chdir p].
Proof. reflexivity. Qed.

(** ** Steps of the primitives *)

Lemma chdir_dir w p entries :
  nodes w !! resolve w p = Some (Dir entries) →
  os_chdir p w = (Ok tt, entered w p).
Proof. intros H. unfold os_chdir. rewrite H. reflexivity. Qed.

Lemma chdir_Ok_inv w p w' :
  os_chdir p w = (Ok tt, w') → w' = entered w p.
Proof.
  unfold os_chdir. destruct (nodes w !! resolve w p) as [[?|?]|]; [|discriminate..].
  by intros [= <-].
Qed.

Lemma chdir_trace w p r w' :
  os_chdir p w = (r, w') →
  trace w' = trace w ∨ trace w' = trace w ++ [Chdir p].
Proof.
  unfold os_chdir. destruct (nodes w !! resolve w p) as [[?|?]|];
    intros [= <- <-]; auto.
Qed.

(** Steps of the primitives that cannot fail, under a bind. *)
Section steps.
Context {B : Type}.

Lemma ret_bind {A} (a : A) (f : A → M B) w : (mret a ≫= f) w = f a w.
Proof. reflexivity. Qed.

Lemma raise_bind {A} e (f : A → M B) w : (raise e ≫= f) w = (Raise e, w).
Proof. reflexivity. Qed.

Lemma exists_bind p (f : bool → M B) w n :
  nodes w !! resolve w p = Some n → (os_path_exists p ≫= f) w = f true w.
Proof. intros H. unfold os_path_exists. rewrite bind_unfold, H. reflexivity. Qed.

Lemma missing_bind p (f : bool → M B) w :
  nodes w !! resolve w p = None → (os_path_exists p ≫= f) w = f false w.
Proof. intros H. unfold os_path_exists. rewrite bind_unfold, H. reflexivity. Qed.

Lemma getcwd_bind (f : string → M B) w : (os_getcwd ≫= f) w = f (cwd w) w.
Proof. reflexivity. Qed.

Lemma run_soft_bind ext soft config_path wkdir (f : Z → M B) w :
  (run_soft ext soft config_path wkdir ≫= f) w
  = f (soft_status ext soft config_path wkdir (cwd w) (nodes w))
      (after_soft ext soft config_path wkdir w).
Proof. reflexivity. Qed.

Lemma extract_loads_bind ext wkdir (f : unit → M B) w :
  (extract_loads ext wkdir ≫= f) w
  = f tt (emit (ExtractLoads wkdir)
            (set_nodes (extract_loads_effect ext wkdir (cwd w) (nodes w)) w)).
Proof. reflexivity. Qed.

Lemma chdir_bind p (f : unit → M B) w entries :
  nodes w !! resolve w p = Some (Dir entries) →
  (os_chdir p ≫= f) w = f tt (entered w p).
Proof. intros H. apply bind_Ok, (chdir_dir _ _ _ H). Qed.

Lemma listdir_bind p (f : list string → M B) w entries :
  nodes w !! resolve w p = Some (Dir entries) → (os_listdir p ≫= f) w = f entries w.
Proof. intros H. apply bind_Ok. unfold os_listdir. by rewrite H. Qed.
End steps.

Ltac wsimpl :=
  cbn [nodes canon cwd trace log stdout emit set_cwd set_nodes raise_if negb].

(** Runs the next steps of a computation that cannot fail. *)
Ltac mrun :=
  repeat (first [ rewrite bind_assoc | rewrite ret_bind | rewrite raise_bind
                | rewrite getcwd_bind | rewrite run_soft_bind
                | rewrite extract_loads_bind ];
          wsimpl).

(** ** The scan of a case directory *)

Ltac names_neq := repeat (rewrite decide_False by done; mrun).

Lemma scan_file_inv config_dir file v w r w' :
  scan_file config_dir file v w = (r, w') →
  w' = w
  ∧ (((file ∉ config_names) ∧ r = Ok v)
     ∨ (file ∈ config_names ∧ flag file v = true ∧ r = Raise (more_than_one file))
     ∨ (file ∈ config_names ∧ flag file v = false
        ∧ ∃ v', r = Ok v' ∧ recorded config_dir file v v')).
Proof.
  unfold scan_file, check_name.
  destruct (decide (file = "ConfigCFD.cfg")) as [->|H1];
    [|destruct (decide (file = "ConfigDEF.cfg")) as [->|H2];
      [|destruct (decide (file = "ConfigDEF_rot.cfg")) as [->|H3];
        [|destruct (decide (file = "ConfigDEF_rot_sym.cfg")) as [->|H4]]]].
  5: { mrun. intros [= <- <-]. split; [done|]. left. split; [|done].
       unfold config_names. rewrite !not_elem_of_cons.
       repeat split; try done. apply not_elem_of_nil. }
  all: cbn [decide]; mrun; names_neq.
  all: match goal with
       | |- context [raise_if (?found ?x) _] => destruct (found x) eqn:Hfound
       end; wsimpl; mrun; names_neq; mrun.
  all: intros [= <- <-]; (split; [done|]); right.
  all: try (left; repeat split; [unfold config_names; set_solver | done]).
  all: right; split; [unfold config_names; set_solver|]; (split; [done|]).
  all: eexists; split; [done|].
  all: split; intros name; unfold flag, path_var; cbn;
         repeat case_decide; simplify_eq; done.
Qed.

(** The scan only looks: it leaves the world as it is. *)
Lemma scan_pure config_dir files v w r w' :
  for_ files (scan_file config_dir) v w = (r, w') → w' = w.
Proof.
  revert v. induction files as [|file files IH]; intros v; cbn [for_].
  - by intros [= _ <-].
  - rewrite bind_unfold.
    destruct (scan_file config_dir file v w) as [[v1|e] w1] eqn:Hfile;
      apply scan_file_inv in Hfile as [-> _]; [apply IH | by intros [= _ <-]].
Qed.

Lemma elem_of_cons_names (name file : string) (files : list string) :
  (name = file → name ∉ config_names) →
  (name ∈ file :: files ∧ name ∈ config_names)
  ↔ (name ∈ files ∧ name ∈ config_names).
Proof.
  intros H. rewrite elem_of_cons. split.
  - intros [[Heq|?] ?]; [by destruct (H Heq)|done].
  - intros [? ?]; auto.
Qed.

(** After a scan that went through, a flag is set when its name is in the
    listing, and its path variable then holds the path of that file. *)
Lemma scan_Ok config_dir files v w v' w' name :
  for_ files (scan_file config_dir) v w = (Ok v', w') →
  flag name v' = flag name v || bool_decide (name ∈ files ∧ name ∈ config_names)
  ∧ path_var name v' = if bool_decide (name ∈ files ∧ name ∈ config_names)
                       then Some (path_join config_dir name)
                       else path_var name v.
Proof.
  revert v. induction files as [|file files IH]; intros v; cbn [for_].
  - intros [= <- _]. rewrite bool_decide_false by (rewrite elem_of_nil; tauto).
    by rewrite orb_false_r.
  - rewrite bind_unfold.
    destruct (scan_file config_dir file v w) as [[v1|e] w1] eqn:Hfile;
      [|discriminate].
    apply scan_file_inv in Hfile as [-> Hfile]. intros [Hf Hp]%IH.
    rewrite Hf, Hp. clear Hf Hp IH.
    destruct Hfile as [[Hout [= <-]] | [(_ & _ & [=]) | (Hin & Hnew & v2 & [= <-] & Hflag & Hpath)]].
    + assert (name = file → name ∉ config_names) as Hne by (by intros ->).
      by rewrite (bool_decide_ext _ _ (elem_of_cons_names name file files Hne)).
    + rewrite Hflag, Hpath. destruct (decide (name = file)) as [->|Hne].
      * rewrite (bool_decide_true (file ∈ file :: files ∧ _))
          by (split; [left|done]).
        cbn. rewrite Hnew. by destruct (bool_decide _).
      * assert (name = file → name ∉ config_names) as Hne' by done.
        by rewrite (bool_decide_ext _ _ (elem_of_cons_names name file files Hne')).
Qed.

(** A listing without repetition is scanned without error. *)
Lemma scan_NoDup config_dir files v w :
  NoDup files → (∀ name, name ∈ files → flag name v = false) →
  ∃ v', for_ files (scan_file config_dir) v w = (Ok v', w).
Proof.
  revert v. induction files as [|file files IH]; intros v Hnd Hfresh; cbn [for_].
  - by eexists.
  - apply NoDup_cons in Hnd as [Hnotin Hnd]. rewrite bind_unfold.
    destruct (scan_file config_dir file v w) as [r w1] eqn:Hfile.
    apply scan_file_inv in Hfile as [-> Hfile].
    destruct Hfile as [[Hout ->] | [(_ & Htrue & _) | (Hin & Hnew & v2 & -> & Hflag & Hpath)]].
    + apply IH; [done|]. intros name Hname. apply Hfresh. by right.
    + rewrite Hfresh in Htrue by left. discriminate.
    + apply IH; [done|]. intros name Hname. rewrite Hflag.
      rewrite decide_False by (intros ->; done). apply Hfresh. by right.
Qed.

Lemma flag_reset name v : flag name (reset_flags v) = false.
Proof. unfold flag. repeat case_decide; reflexivity. Qed.

Lemma scan_flag config_dir files v w v1 w1 name :
  name ∈ config_names →
  for_ files (scan_file config_dir) (reset_flags v) w = (Ok v1, w1) →
  flag name v1 = bool_decide (name ∈ files)
  ∧ (name ∈ files → path_var name v1 = Some (path_join config_dir name)).
Proof.
  intros Hname [Hf Hp]%(scan_Ok _ _ _ _ _ _ name).
  rewrite flag_reset in Hf. cbn in Hf. split.
  - rewrite Hf. apply bool_decide_ext. tauto.
  - intros Hin. by rewrite Hp, bool_decide_true.
Qed.

(** ** One case directory *)

Lemma trace_after_soft ext soft p d w :
  trace (after_soft ext soft p d w) = trace w ++ [Exec soft p d].
Proof. reflexivity. Qed.

Lemma trace_after_def ext b p d w :
  trace (after_def ext b p d w)
  = trace w ++ (if b then [Exec "SU2_DEF" p d] else []).
Proof. destruct b; cbn; [done | by rewrite app_nil_r]. Qed.

Lemma cwd_after_def ext b p d w : cwd (after_def ext b p d w) = cwd w.
Proof. by destruct b. Qed.

Lemma run_def_if_bind {B} ext (found : bool) name o p config_dir (f : unit → M B) w :
  (found = true → o = Some p) →
  (run_def_if ext found name o config_dir ≫= f) w
  = f tt (after_def ext found p config_dir w).
Proof.
  intros H. unfold run_def_if, after_def. destruct found; [|reflexivity].
  rewrite (H eq_refl). cbn [local_var]. by mrun.
Qed.

Lemma chdir_inv p w r w' :
  os_chdir p w = (r, w') →
  (is_Raise r ∧ w' = w ∧ ∀ entries, nodes w !! resolve w p ≠ Some (Dir entries))
  ∨ (∃ entries, nodes w !! resolve w p = Some (Dir entries)
                ∧ r = Ok tt ∧ w' = entered w p).
Proof.
  unfold os_chdir. destruct (nodes w !! resolve w p) as [[entries|cfg]|];
    intros [= <- <-]; [right; eauto | left.. ]; done.
Qed.

Lemma listdir_inv p w r w' :
  os_listdir p w = (r, w') →
  w' = w
  ∧ ((is_Raise r ∧ ∀ entries, nodes w !! resolve w p ≠ Some (Dir entries))
     ∨ (∃ entries, nodes w !! resolve w p = Some (Dir entries) ∧ r = Ok entries)).
Proof.
  unfold os_listdir. destruct (nodes w !! resolve w p) as [[entries|cfg]|];
    intros [= <- <-]; (split; [done|]); [right; eauto | left.. ]; done.
Qed.

Lemma canon_after_def ext b p d w : canon (after_def ext b p d w) = canon w.
Proof. by destruct b. Qed.

(** What the body of the loop over the case directories does, in every case
    of its control flow. *)
Lemma run_case_cases ext wkdir dir v w r w' :
  run_case ext wkdir dir v w = (r, w') →
  let config_dir := path_join wkdir dir in
  canon w' = canon w
  ∧ ((is_Raise r ∧ trace w' = trace w
      ∧ ∀ files, nodes w !! resolve w config_dir ≠ Some (Dir files))
     ∨ (is_Raise r ∧ trace w' = trace w ++ [Chdir config_dir]
        ∧ is_dir (nodes w) (resolve w config_dir)
        ∧ ∀ files, nodes w !! listing_key w config_dir ≠ Some (Dir files))
     ∨ ∃ files, is_dir (nodes w) (resolve w config_dir)
        ∧ nodes w !! listing_key w config_dir = Some (Dir files)
        ∧ ((is_Raise r ∧ trace w' = trace w ++ [Chdir config_dir] ∧ ¬ NoDup files)
           ∨ (("ConfigCFD.cfg" ∉ files) ∧ r = Raise no_config_cfd
              ∧ trace w' = trace w ++ [Chdir config_dir] ++ def_events config_dir files)
           ∨ ("ConfigCFD.cfg" ∈ files
              ∧ ∃ back, trace w' = trace w ++ [Chdir config_dir]
                                   ++ def_events config_dir files
                                   ++ [cfd_event config_dir] ++ back
                        ∧ ((back = [] ∧ is_Raise r)
                           ∨ (back = [Chdir wkdir]
                              ∧ cwd w' = key_in w (resolve w config_dir) wkdir
                              ∧ ∃ v', r = Ok v'))))).
Proof.
  unfold run_case. cbv zeta. set (config_dir := path_join wkdir dir).
  rewrite bind_unfold.
  destruct (os_chdir config_dir w) as [r1 w1] eqn:Hcd.
  apply chdir_inv in Hcd as [(Hr & -> & Hnone) | (entries & Hent & -> & ->)].
  { destruct r1; [done|]. intros [= <- <-]. split; [done|]. by left. }
  assert (is_dir (nodes w) (resolve w config_dir)) as Hisdir by by exists entries.
  clear entries Hent.
  cbv beta iota. rewrite bind_unfold.
  destruct (os_listdir config_dir (entered w config_dir)) as [r2 w2] eqn:Hls.
  apply listdir_inv in Hls as [-> [[Hr Hnone] | (files & Hdir & ->)]].
  { destruct r2; [done|]. intros [= <- <-]. split; [done|]. right; left. done. }
  change (nodes w !! listing_key w config_dir = Some (Dir files)) in Hdir.
  rewrite bind_unfold.
  destruct (for_ files _ _ _) as [[v1|e] w1] eqn:Hscan;
    pose proof (scan_pure _ _ _ _ _ _ Hscan) as ->.
  2: { intros [= <- <-]. split; [done|]. right; right.
       exists files. split; [done|]. split; [done|]. left.
       split; [done|]. split; [done|]. intros Hnd.
       destruct (scan_NoDup config_dir files (reset_flags v)
                   (entered w config_dir) Hnd)
         as [v' Hv']; [intros; apply flag_reset | congruence]. }
  destruct (scan_flag _ _ _ _ _ _ "ConfigCFD.cfg" ltac:(set_solver) Hscan) as [Hcfd Hcfdp].
  destruct (scan_flag _ _ _ _ _ _ "ConfigDEF.cfg" ltac:(set_solver) Hscan) as [Hdef Hdefp].
  destruct (scan_flag _ _ _ _ _ _ "ConfigDEF_rot.cfg" ltac:(set_solver) Hscan) as [Hrot Hrotp].
  destruct (scan_flag _ _ _ _ _ _ "ConfigDEF_rot_sym.cfg" ltac:(set_solver) Hscan) as [Hsym Hsymp].
  change (find_config_cfd v1 = bool_decide ("ConfigCFD.cfg" ∈ files)) in Hcfd.
  change (find_config_def v1 = bool_decide ("ConfigDEF.cfg" ∈ files)) in Hdef.
  change (find_config_rot v1 = bool_decide ("ConfigDEF_rot.cfg" ∈ files)) in Hrot.
  change (find_config_rot_sym v1 = bool_decide ("ConfigDEF_rot_sym.cfg" ∈ files)) in Hsym.
  change (path_var "ConfigCFD.cfg" v1) with (config_cfd_path v1) in Hcfdp.
  change (path_var "ConfigDEF.cfg" v1) with (config_def_path v1) in Hdefp.
  change (path_var "ConfigDEF_rot.cfg" v1) with (config_rot_path v1) in Hrotp.
  change (path_var "ConfigDEF_rot_sym.cfg" v1) with (config_rot_sym_path v1) in Hsymp.
  clear Hscan.
  rewrite (run_def_if_bind _ _ _ _ (path_join config_dir "ConfigDEF.cfg"))
    by (rewrite Hdef; intros ?%bool_decide_eq_true; auto).
  rewrite (run_def_if_bind _ _ _ _ (path_join config_dir "ConfigDEF_rot.cfg"))
    by (rewrite Hrot; intros ?%bool_decide_eq_true; auto).
  rewrite (run_def_if_bind _ _ _ _ (path_join config_dir "ConfigDEF_rot_sym.cfg"))
    by (rewrite Hsym; intros ?%bool_decide_eq_true; auto).
  rewrite Hcfd, Hdef, Hrot, Hsym.
  match goal with |- context [after_def ?e ?b ?p ?d (after_def ?e2 ?b2 ?p2 ?d2 (after_def ?e3 ?b3 ?p3 ?d3 ?x))] =>
    set (w4 := after_def e b p d (after_def e2 b2 p2 d2 (after_def e3 b3 p3 d3 x)));
    assert (trace w4 = trace w ++ [Chdir config_dir] ++ def_events config_dir files) as Htrace
      by (unfold w4, def_events; rewrite !trace_after_def; cbn [trace emit set_cwd entered];
          rewrite <- !app_assoc; reflexivity);
    assert (canon w4 = canon w) as Hcanon
      by (unfold w4; rewrite !canon_after_def; reflexivity);
    assert (cwd w4 = resolve w config_dir) as Hcwd
      by (unfold w4; rewrite !cwd_after_def; reflexivity)
  end.
  clearbody w4.
  destruct (decide ("ConfigCFD.cfg" ∈ files)) as [Hin|Hout].
  - rewrite bool_decide_true by done. rewrite Hcfdp by done.
    cbn [local_var negb raise_if]. mrun. rewrite bind_unfold.
    destruct (os_chdir wkdir _) as [r2 w5] eqn:Hback.
    apply chdir_inv in Hback as [(Hr & -> & _) | (entries & _ & -> & ->)].
    + destruct r2; [done|]. intros [= <- <-]. split; [done|].
      right; right. exists files. split; [done|]. split; [done|].
      right; right. split; [done|].
      exists []. split; [|by left].
      rewrite trace_after_soft, Htrace, <- !app_assoc. reflexivity.
    + mrun. intros [= <- <-]. split; [done|].
      right; right. exists files. split; [done|]. split; [done|].
      right; right. split; [done|].
      exists [Chdir wkdir]. split; [|right; split; [done|]; split; [|eauto]].
      * cbn [trace emit set_cwd entered]. rewrite trace_after_soft, Htrace, <- !app_assoc.
        reflexivity.
      * cbn [cwd entered emit set_cwd]. unfold resolve, key_in. cbn [canon cwd after_soft emit set_nodes].
        by rewrite Hcanon, Hcwd.
  - rewrite bool_decide_false by done. cbn [negb raise_if]. mrun.
    intros [= <- <-]. split; [done|].
    right; right. exists files. split; [done|]. split; [done|]. right; left. done.
Qed.

(** ** The loop over the case directories *)

Lemma outside_calls_app t1 t2 :
  outside_calls (t1 ++ t2) = outside_calls t1 ++ outside_calls t2.
Proof. apply List.filter_app. Qed.

Lemma outside_calls_def_events config_dir files :
  outside_calls (def_events config_dir files) = def_events config_dir files.
Proof. unfold def_events. by repeat destruct (bool_decide _). Qed.

Lemma executables_app t1 t2 :
  executables (t1 ++ t2) = executables t1 ++ executables t2.
Proof. apply omap_app. Qed.

Lemma for_cases ext wkdir dirs v w r w' :
  for_ dirs (run_case ext wkdir) v w = (r, w') →
  ∃ t, trace w' = trace w ++ t
       ∧ case_blocks ext wkdir dirs w (outside_calls t)
       ∧ canon w' = canon w
       ∧ (¬ is_Raise r → dirs ≠ [] → String.prefix "/" wkdir = true →
          cwd w' = canon w wkdir).
Proof.
  revert v w. induction dirs as [|dir dirs IH]; intros v w; cbn [for_].
  - intros [= <- <-]. exists []. rewrite app_nil_r.
    split; [done|]. split; [constructor | done].
  - rewrite bind_unfold.
    destruct (run_case ext wkdir dir v w) as [r1 w1] eqn:Hcase.
    pose proof (run_case_cases _ _ _ _ _ _ _ Hcase) as Hcases. cbv zeta in Hcases.
    destruct Hcases as [Hcanon [(Hr & Ht & _) | [(Hr & Ht & _)
      | (files & Hisdir & Hdir & [(Hr & Ht & _) | [(Hout & -> & Ht) | (Hin & back & Ht & Hback)]])]]].
    + destruct r1; [done|]. intros [= <- <-]. exists [].
      rewrite app_nil_r. split; [done|]. split; [constructor | done].
    + destruct r1; [done|]. intros [= <- <-]. eexists. split; [done|].
      split; [constructor | done].
    + destruct r1; [done|]. intros [= <- <-]. eexists. split; [done|].
      split; [constructor | done].
    + intros [= <- <-]. eexists. split; [done|]. split; [|done].
      cbn [app outside_calls List.filter].
      change (List.filter _ ?l) with (outside_calls l).
      rewrite outside_calls_def_events. by constructor.
    + destruct Hback as [[-> Hr] | (-> & Hcwd & v1 & ->)].
      * destruct r1; [done|]. intros [= <- <-]. eexists. split; [done|].
        split; [|done].
        cbn [app outside_calls List.filter].
        change (List.filter _ ?l) with (outside_calls l).
        rewrite outside_calls_app, outside_calls_def_events. cbn.
        eapply (blocks_case _ _ _ _ _ _ _ _ _ []); [done..| constructor].
      * intros Hrest. destruct (IH _ _ Hrest) as (t & Ht' & Hblocks & Hcanon' & Hcwd').
        exists ([Chdir (path_join wkdir dir)] ++ def_events (path_join wkdir dir) files
                ++ [cfd_event (path_join wkdir dir)] ++ [Chdir wkdir] ++ t).
        split; [by rewrite Ht', Ht, <- !app_assoc|]. split; [|split].
        -- cbn [app outside_calls List.filter].
           change (List.filter _ ?l) with (outside_calls l).
           rewrite outside_calls_app, outside_calls_def_events.
           cbn [app outside_calls List.filter cfd_event].
           change (List.filter _ ?l) with (outside_calls l).
           by econstructor.
        -- congruence.
        -- intros Hr _ Habs. destruct dirs as [|dir' dirs].
           ++ cbn [for_] in Hrest. injection Hrest as _ <-.
              by rewrite Hcwd, key_in_abs.
           ++ rewrite Hcwd', Hcanon by done. done.
Qed.

(** How [run_SU2_multi] gets to its loop. *)
Lemma multi_inv ext wkdir w r w' :
  run_SU2_multi ext wkdir w = (r, w') →
  (is_Raise r ∧ w' = w ∧ ∀ entries, nodes w !! resolve w wkdir ≠ Some (Dir entries))
  ∨ (is_Raise r ∧ w' = entered w wkdir
     ∧ is_dir (nodes w) (resolve w wkdir)
     ∧ ∀ entries, nodes w !! listing_key w wkdir ≠ Some (Dir entries))
  ∨ ∃ entries, is_dir (nodes w) (resolve w wkdir)
     ∧ nodes w !! listing_key w wkdir = Some (Dir entries)
     ∧ ((case_dirs entries = [] ∧ r = Raise (no_case_dir wkdir)
         ∧ w' = entered w wkdir)
        ∨ (case_dirs entries ≠ []
           ∧ ∃ r1, for_ (case_dirs entries) (run_case ext wkdir) no_locals
                     (entered w wkdir) = (r1, w')
                   ∧ r = forget r1)).
Proof.
  unfold run_SU2_multi.
  destruct (nodes w !! resolve w wkdir) as [[ents|cfg]|] eqn:Hdir.
  - rewrite (exists_bind _ _ _ _ Hdir). wsimpl. mrun.
    rewrite (chdir_bind _ _ _ _ Hdir). rewrite bind_unfold.
    assert (is_dir (nodes w) (resolve w wkdir)) as Hisdir by by exists ents.
    destruct (os_listdir wkdir (entered w wkdir)) as [r2 w2] eqn:Hls.
    apply listdir_inv in Hls as [-> [[Hr Hnone] | (entries & Hls & ->)]].
    { destruct r2; [done|]. intros [= <- <-]. right; left. done. }
    change (nodes w !! listing_key w wkdir = Some (Dir entries)) in Hls.
    cbv zeta.
    intros Hrun. right; right. exists entries. split; [done|]. split; [done|].
    destruct (case_dirs entries) as [|dir dirs] eqn:Hdirs.
    + left. rewrite bool_decide_true in Hrun by done.
      cbn [raise_if] in Hrun. rewrite raise_bind in Hrun.
      by injection Hrun as <- <-.
    + right. split; [done|].
      rewrite bool_decide_false in Hrun by done. cbn [raise_if] in Hrun.
      rewrite ret_bind, bind_unfold in Hrun.
      destruct (for_ _ _ _ _) as [[v1|e] w1]; injection Hrun as <- <-; eauto.
  - rewrite (exists_bind _ _ _ _ Hdir). wsimpl. mrun.
    rewrite bind_unfold. unfold os_chdir. rewrite Hdir.
    intros [= <- <-]. left. by repeat split.
  - rewrite (missing_bind _ _ _ Hdir). wsimpl. mrun.
    intros [= <- <-]. left. by repeat split.
Qed.

(** ** The FSI run *)

Lemma read_config_inv p w r w' :
  read_config p w = (r, w') →
  (is_Raise r ∧ w' = w ∧ ∀ cfg, nodes w !! resolve w p ≠ Some (File cfg))
  ∨ (∃ cfg, nodes w !! resolve w p = Some (File cfg)
            ∧ r = Ok cfg ∧ w' = emit (ReadConfig p) w).
Proof.
  unfold read_config. destruct (nodes w !! resolve w p) as [[entries|cfg]|];
    intros [= <- <-]; [left | right; eauto | left]; done.
Qed.

Lemma write_config_inv p cfg w r w' :
  write_config p cfg w = (r, w') →
  (is_Raise r ∧ w' = w ∧ ∃ entries, nodes w !! resolve w p = Some (Dir entries))
  ∨ (r = Ok tt
     ∧ w' = emit (WriteConfig p cfg)
              (set_nodes (<[resolve w p := File cfg]> (nodes w)) w)
     ∧ ∀ entries, nodes w !! resolve w p ≠ Some (Dir entries)).
Proof.
  unfold write_config. destruct (nodes w !! resolve w p) as [[entries|cfg']|];
    intros [= <- <-]; [left; repeat split; eauto | right..]; done.
Qed.

(** What [run_SU2_fsi] does in an existing working directory, in every case
    of its control flow.  The paths of the three files are taken from the
    working directory, where the process is when it reads and writes them. *)
Lemma fsi_cases ext config_path wkdir w entries r w' :
  nodes w !! resolve w wkdir = Some (Dir entries) →
  run_SU2_fsi ext config_path wkdir w = (r, w') →
  let key := from_dir w wkdir in
  (is_Raise r ∧ trace w' = trace w ++ [Chdir wkdir]
   ∧ ∀ cfg, nodes w !! key config_path ≠ Some (File cfg))
  ∨ ∃ cfg, nodes w !! key config_path = Some (File cfg)
     ∧ ((is_Raise r
         ∧ trace w' = trace w ++ take 2 (fsi_events w config_path wkdir cfg)
         ∧ is_dir (nodes w) (key (path_join wkdir "ConfigDEF.cfg")))
        ∨ (is_Raise r
           ∧ trace w' = trace w ++ take 4 (fsi_events w config_path wkdir cfg)
           ∧ is_dir (nodes w) (key (path_join wkdir "ConfigCFD.cfg")))
        ∨ (∃ back, trace w' = trace w ++ fsi_events w config_path wkdir cfg ++ back
                   ∧ ((back = [] ∧ is_Raise r)
                      ∨ (back = [Chdir (cwd w)] ∧ r = Ok tt
                         ∧ cwd w' = key (cwd w))))).
Proof.
  intros Hdir. unfold run_SU2_fsi.
  rewrite (exists_bind _ _ _ _ Hdir). wsimpl. mrun.
  rewrite (chdir_bind _ _ _ _ Hdir). cbv zeta.
  set (def := path_join wkdir "ConfigDEF.cfg").
  set (cfd := path_join wkdir "ConfigCFD.cfg").
  rewrite bind_unfold.
  destruct (read_config config_path _) as [r1 w1] eqn:Hread1.
  apply read_config_inv in Hread1 as [(Hr & -> & Hno) | (cfg & Hcfg & -> & ->)].
  { destruct r1; [done|]. intros [= <- <-]. left. done. }
  change (nodes w !! from_dir w wkdir config_path = Some (File cfg)) in Hcfg.
  rewrite bind_unfold.
  destruct (write_config def _ _) as [r2 w2] eqn:Hw1.
  apply write_config_inv in Hw1 as [(Hr & -> & Hd) | (-> & -> & Hnd)].
  { destruct r2; [done|]. intros [= <- <-]. right. exists cfg.
    split; [done|]. left. split; [done|]. split; [|done].
    cbn [trace emit set_cwd entered take fsi_events]. by rewrite <- app_assoc. }
  cbv beta iota.
  match goal with |- (_ ≫= _) ?x = _ → _ => set (w2 := x) end.
  assert (read_config config_path w2
          = (Ok (second_read w config_path wkdir cfg), emit (ReadConfig config_path) w2))
    as Hread2.
  { unfold read_config, w2, second_read.
    change (resolve (emit _ (set_nodes _ (emit _ (entered w wkdir)))) config_path)
      with (from_dir w wkdir config_path).
    change (resolve (emit _ (entered w wkdir)) def)
      with (from_dir w wkdir def).
    cbn [nodes emit set_nodes set_cwd entered].
    rewrite lookup_insert. fold def.
    destruct (decide (from_dir w wkdir def
                      = from_dir w wkdir config_path)) as [Heq|Hne].
    - by rewrite decide_True.
    - rewrite decide_False by congruence. by rewrite Hcfg. }
  rewrite (bind_Ok _ _ _ _ _ Hread2). clear Hread2.
  rewrite bind_unfold.
  destruct (write_config cfd _ _) as [r3 w3] eqn:Hw2.
  apply write_config_inv in Hw2 as [(Hr & -> & Hd) | (-> & -> & Hnd2)].
  { destruct r3; [done|]. intros [= <- <-]. right. exists cfg.
    split; [done|]. right; left. split; [done|]. split.
    { unfold w2. cbn [trace emit set_nodes set_cwd entered take fsi_events].
      by rewrite <- !app_assoc. }
    destruct Hd as [entries' Hd]. exists entries'.
    unfold w2 in Hd.
    change (resolve (emit _ (emit _ (set_nodes _ (emit _ (entered w wkdir))))) cfd)
      with (from_dir w wkdir cfd) in Hd.
    change (resolve (emit _ (entered w wkdir)) def)
      with (from_dir w wkdir def) in Hd.
    cbn [nodes emit set_nodes set_cwd entered] in Hd.
    rewrite lookup_insert in Hd. by case_decide. }
  cbv beta iota. mrun.
  match goal with |- os_chdir _ ?x = _ → _ => set (w3 := x) end.
  intros Hback. right. exists cfg. split; [done|]. right; right.
  assert (trace w3 = trace w ++ fsi_events w config_path wkdir cfg) as Htrace.
  { unfold w3, after_soft, w2. cbn [trace emit set_nodes set_cwd entered].
    rewrite <- !app_assoc. reflexivity. }
  assert (∀ p, resolve w3 p = from_dir w wkdir p) as Hres by reflexivity.
  clearbody w3.
  apply chdir_inv in Hback as [(Hr & -> & _) | (entries' & _ & -> & ->)].
  - exists []. rewrite app_nil_r. split; [done|]. by left.
  - exists [Chdir (cwd w)]. cbn [trace emit set_cwd cwd entered].
    split; [by rewrite Htrace, <- app_assoc|]. right.
    split; [done|]. split; [done|]. apply Hres.
Qed.

(** * Properties *)

(** C8. When the working directory given to [run_SU2_single],
    [run_SU2_multi] or [run_SU2_fsi] does not exist, the function raises
    [OSError] and the world is as it was: no executable was invoked, no
    configuration file read or written, the current directory not changed. *)
Theorem missing_wkdir_raises_first ext config_path wkdir w :
  nodes w !! resolve w wkdir = None →
  run_SU2_single ext config_path wkdir w = (Raise (wkdir_missing wkdir), w)
  ∧ run_SU2_multi ext wkdir w = (Raise (wkdir_missing wkdir), w)
  ∧ run_SU2_fsi ext config_path wkdir w = (Raise (wkdir_missing wkdir), w).
Proof.
  intros H.
  unfold run_SU2_single, run_SU2_multi, run_SU2_fsi.
  rewrite !(missing_bind _ _ _ H).
  repeat split; reflexivity.
Qed.

Lemma missing_wkdir_raises_first_witness :
  nodes Demo.w0 !! resolve Demo.w0 "/nowhere" = None
  ∧ run_SU2_single Demo.quiet "/w/ConfigCFD.cfg" "/nowhere" Demo.w0
    = (Raise (OSError "The working directory : /nowheredoes not exit!"), Demo.w0)
  ∧ run_SU2_multi Demo.quiet "/nowhere" Demo.w0
    = (Raise (OSError "The working directory : /nowheredoes not exit!"), Demo.w0)
  ∧ run_SU2_fsi Demo.quiet "/w/ConfigCFD.cfg" "/nowhere" Demo.w0
    = (Raise (OSError "The working directory : /nowheredoes not exit!"), Demo.w0).
Proof.
  split; [vm_compute; reflexivity|].
  apply (missing_wkdir_raises_first Demo.quiet "/w/ConfigCFD.cfg" "/nowhere" Demo.w0).
  vm_compute; reflexivity.
Defined.

(** C4. Called with an existing working directory, [run_SU2_single] invokes
    exactly two executables, [SU2_CFD] then [SU2_SOL], each with the given
    [config_path] and working directory, and no other. *)
Theorem single_runs_cfd_then_sol ext config_path wkdir w entries r w' :
  nodes w !! resolve w wkdir = Some (Dir entries) →
  run_SU2_single ext config_path wkdir w = (r, w') →
  ∃ t, trace w' = trace w ++ t
       ∧ executables t = [("SU2_CFD", config_path, wkdir);
                          ("SU2_SOL", config_path, wkdir)]
       ∧ outside_calls t = [Exec "SU2_CFD" config_path wkdir;
                            Exec "SU2_SOL" config_path wkdir].
Proof.
  intros Hdir. unfold run_SU2_single.
  rewrite (exists_bind _ _ _ _ Hdir). wsimpl. mrun.
  rewrite (chdir_bind _ _ _ _ Hdir). mrun.
  intros Hback. apply chdir_trace in Hback. cbn in Hback.
  rewrite <- !app_assoc in Hback.
  destruct Hback as [-> | ->]; eexists;
    (split; [reflexivity | split; reflexivity]).
Qed.

Lemma single_runs_cfd_then_sol_witness :
  nodes Demo.w0 !! resolve Demo.w0 "/w"
  = Some (Dir ["Case00_alt0_mach0.3"; "notes.txt"; "Case01_alt0_mach0.5"])
  ∧ ∃ t, trace (run_SU2_single Demo.quiet "/w/ConfigCFD.cfg" "/w" Demo.w0).2
         = trace Demo.w0 ++ t
       ∧ executables t = [("SU2_CFD", "/w/ConfigCFD.cfg", "/w");
                          ("SU2_SOL", "/w/ConfigCFD.cfg", "/w")]
       ∧ outside_calls t = [Exec "SU2_CFD" "/w/ConfigCFD.cfg" "/w";
                            Exec "SU2_SOL" "/w/ConfigCFD.cfg" "/w"].
Proof.
  split; [vm_compute; reflexivity|].
  eapply (single_runs_cfd_then_sol Demo.quiet "/w/ConfigCFD.cfg" "/w" Demo.w0).
  - vm_compute; reflexivity.
  - apply surjective_pairing.
Defined.

(** A run of [run_SU2_multi] only adds to the trace. *)
Lemma multi_trace ext wkdir w r w' :
  run_SU2_multi ext wkdir w = (r, w') → ∃ t, trace w' = trace w ++ t.
Proof.
  intros [(Hr & -> & Hnone) | [(Hr & -> & _)
    | (entries & _ & Hdir & [(Hnil & -> & ->) | (Hcons & r1 & Hloop & ->)])]]%multi_inv.
  - exists []. by rewrite app_nil_r.
  - by exists [Chdir wkdir].
  - by exists [Chdir wkdir].
  - apply for_cases in Hloop as (t & Ht & _).
    rewrite trace_entered in Ht.
    exists ([Chdir wkdir] ++ t). by rewrite Ht, <- app_assoc.
Qed.

(** C6. In [run_SU2_multi] the executables run case directory after case
    directory; for each directory every [SU2_DEF] run (for ["ConfigDEF.cfg"],
    then ["ConfigDEF_rot.cfg"], then ["ConfigDEF_rot_sym.cfg"], each only if
    the file is in the listing of the directory) comes before the single
    [SU2_CFD] run of that directory. *)
Theorem multi_def_runs_before_cfd ext wkdir w r w' :
  run_SU2_multi ext wkdir w = (r, w') →
  ∃ t dirs,
    trace w' = trace w ++ t
    ∧ (∀ entries, nodes w !! listing_key w wkdir = Some (Dir entries) →
                  dirs = case_dirs entries)
    ∧ case_blocks ext wkdir dirs (entered w wkdir) (outside_calls t).
Proof.
  intros [(Hr & -> & Hnone) | [(Hr & -> & _ & Hnone)
    | (entries & _ & Hdir & [(Hnil & -> & ->) | (Hcons & r1 & Hloop & ->)])]]%multi_inv.
  - destruct (nodes w !! listing_key w wkdir) as [[entries|cfg]|] eqn:Hls.
    + exists [], (case_dirs entries). rewrite app_nil_r. split; [done|].
      split; [|constructor]. by intros ? [= ->].
    + exists [], []. rewrite app_nil_r. split; [done|]. split; [done | constructor].
    + exists [], []. rewrite app_nil_r. split; [done|]. split; [done | constructor].
  - exists [Chdir wkdir], []. split; [done|]. split; [|constructor].
    intros entries Hdir. by destruct (Hnone entries).
  - exists [Chdir wkdir], (case_dirs entries). split; [done|].
    split; [|constructor]. intros ? ?. congruence.
  - apply for_cases in Hloop as (t & Ht & Hblocks & _).
    rewrite trace_entered in Ht.
    exists ([Chdir wkdir] ++ t), (case_dirs entries).
    split; [by rewrite Ht, <- app_assoc|]. split; [intros ? ?; congruence|].
    done.
Qed.

Lemma multi_def_runs_before_cfd_witness :
  run_SU2_multi Demo.quiet "/w" Demo.w0
  = (Raise no_config_cfd, (run_SU2_multi Demo.quiet "/w" Demo.w0).2)
  ∧ ∃ t dirs,
      trace (run_SU2_multi Demo.quiet "/w" Demo.w0).2 = trace Demo.w0 ++ t
      ∧ (∀ entries, nodes Demo.w0 !! listing_key Demo.w0 "/w" = Some (Dir entries) →
                    dirs = case_dirs entries)
      ∧ case_blocks Demo.quiet "/w" dirs (entered Demo.w0 "/w") (outside_calls t).
Proof.
  split; [vm_compute; reflexivity|].
  apply (multi_def_runs_before_cfd Demo.quiet "/w" Demo.w0 (Raise no_config_cfd)).
  vm_compute; reflexivity.
Defined.

(** C10, as amended. When they return normally, [run_SU2_single] and
    [run_SU2_fsi] have put the process back in the directory it was in at
    entry, whereas [run_SU2_multi] leaves it where its last
    [os.chdir(wkdir)] leads: in the working directory it was given when
    [wkdir] is an absolute path. *)
Theorem cwd_after_run ext config_path wkdir w :
  (∀ w', run_SU2_single ext config_path wkdir w = (Ok tt, w') →
         cwd w' = from_dir w wkdir (cwd w) ∧ (settled w → cwd w' = cwd w))
  ∧ (∀ w', run_SU2_fsi ext config_path wkdir w = (Ok tt, w') →
           cwd w' = from_dir w wkdir (cwd w) ∧ (settled w → cwd w' = cwd w))
  ∧ (∀ w', run_SU2_multi ext wkdir w = (Ok tt, w') →
           String.prefix "/" wkdir = true → cwd w' = resolve w wkdir).
Proof.
  split; [|split]; intros w' Hrun.
  - assert (cwd w' = from_dir w wkdir (cwd w)) as Hcwd.
    { unfold run_SU2_single in Hrun.
      destruct (nodes w !! resolve w wkdir) as [[entries|cfg]|] eqn:Hdir.
      - rewrite (exists_bind _ _ _ _ Hdir) in Hrun. cbn [raise_if negb] in Hrun.
        rewrite ret_bind, getcwd_bind, (chdir_bind _ _ _ _ Hdir) in Hrun.
        rewrite !run_soft_bind in Hrun.
        by apply chdir_Ok_inv in Hrun as ->.
      - rewrite (exists_bind _ _ _ _ Hdir) in Hrun. cbn [raise_if negb] in Hrun.
        rewrite ret_bind, getcwd_bind, bind_unfold in Hrun.
        unfold os_chdir in Hrun. by rewrite Hdir in Hrun.
      - by rewrite (missing_bind _ _ _ Hdir) in Hrun. }
    split; [done|]. intros Hw. rewrite Hcwd. apply Hw.
  - assert (cwd w' = from_dir w wkdir (cwd w)) as Hcwd.
    { destruct (nodes w !! resolve w wkdir) as [[entries|cfg]|] eqn:Hdir.
      - apply (fsi_cases _ _ _ _ _ _ _ Hdir) in Hrun
          as [[[] _] | (cfg & _ & [[[] _] | [[[] _] | (back & _ & [[_ []] | (_ & _ & Hcwd)])]])].
        done.
      - unfold run_SU2_fsi in Hrun.
        rewrite (exists_bind _ _ _ _ Hdir) in Hrun. cbn [raise_if negb] in Hrun.
        rewrite ret_bind, getcwd_bind, bind_unfold in Hrun.
        unfold os_chdir in Hrun. by rewrite Hdir in Hrun.
      - unfold run_SU2_fsi in Hrun. by rewrite (missing_bind _ _ _ Hdir) in Hrun. }
    split; [done|]. intros Hw. rewrite Hcwd. apply Hw.
  - intros Habs. apply multi_inv in Hrun
      as [([] & _) | [([] & _) | (entries & _ & Hdir & [(_ & [=] & _) | (Hcons & r1 & Hloop & Hr)])]].
    apply for_cases in Hloop as (_ & _ & _ & _ & Hcwd).
    rewrite (resolve_abs _ _ Habs).
    apply Hcwd; [|done..]. destruct r1; [by intros [] | discriminate Hr].
Qed.

Lemma cwd_after_run_witness :
  settled Demo.w0
  ∧ String.prefix "/" "/w2" = true
  ∧ cwd Demo.w0 = "/home"
  ∧ cwd (run_SU2_single Demo.quiet "/w/ConfigCFD.cfg" "/w" Demo.w0).2 = "/home"
  ∧ cwd (run_SU2_fsi Demo.quiet "/w/ConfigCFD.cfg" "/w" Demo.w0).2 = "/home"
  ∧ cwd (run_SU2_multi Demo.quiet "/w2" Demo.w0).2 = "/w2".
Proof.
  pose proof (cwd_after_run Demo.quiet "/w/ConfigCFD.cfg" "/w" Demo.w0)
    as (Hsingle & Hfsi & _).
  pose proof (cwd_after_run Demo.quiet "/w/ConfigCFD.cfg" "/w2" Demo.w0)
    as (_ & _ & Hmulti).
  assert (settled Demo.w0) as Hw by (intros dir; reflexivity).
  split; [done|]. split; [reflexivity|]. split; [reflexivity|].
  split; [|split].
  - apply Hsingle; [vm_compute; reflexivity | done].
  - apply Hfsi; [vm_compute; reflexivity | done].
  - apply Hmulti; [vm_compute; reflexivity | reflexivity].
Defined.

(** C10, as stated, fails for [run_SU2_multi] when the working directory is
    given by a relative path: every [os.chdir] and [os.listdir] of the
    function takes the path from the directory the process is in by then.
    From ["/home"], with ["w"] for working directory, [os.chdir("w")] leads to
    ["/home/w"], [os.chdir("w/Case0")] from there to ["/home/w/w/Case0"], and
    the last [os.chdir("w")] to ["/home/w/w/Case0/w"], where the function
    returns: not in the working directory it was given. *)
Lemma cwd_after_run_counterexample :
  cwd Demo.w_nested = "/home"
  ∧ resolve Demo.w_nested "w" = "/home/w"
  ∧ run_SU2_multi Demo.quiet "w" Demo.w_nested
    = (Ok tt, (run_SU2_multi Demo.quiet "w" Demo.w_nested).2)
  ∧ trace (run_SU2_multi Demo.quiet "w" Demo.w_nested).2
    = [Chdir "w"; Chdir "w/Case0";
       Exec "SU2_CFD" "w/Case0/ConfigCFD.cfg" "w/Case0"; Chdir "w"]
  ∧ cwd (run_SU2_multi Demo.quiet "w" Demo.w_nested).2 = "/home/w/w/Case0/w"
  ∧ cwd (run_SU2_multi Demo.quiet "w" Demo.w_nested).2 ≠ resolve Demo.w_nested "w"
  ∧ cwd (run_SU2_multi Demo.quiet "w" Demo.w_nested).2 ≠ "w".
Proof.
  split; [reflexivity|]. split; [vm_compute; reflexivity|].
  split; [vm_compute; reflexivity|]. split; [vm_compute; reflexivity|].
  split; [vm_compute; reflexivity|].
  split; vm_compute; discriminate.
Qed.

(** C5. Called with an existing working directory, [run_SU2_fsi] invokes
    [SU2_DEF] with the generated ["ConfigDEF.cfg"], then [SU2_CFD], then
    [SU2_SOL], both with the generated ["ConfigCFD.cfg"], and delegates to
    [extract_loads] on the working directory only after the three: every run
    either stops on an exception before the first call, having invoked
    nothing, or makes the four calls in this order after it has written the
    two files; it makes them whenever it returns normally and whenever the
    configuration can be read and the two files written. *)
Theorem fsi_def_cfd_sol_then_extract ext config_path wkdir w entries r w' :
  nodes w !! resolve w wkdir = Some (Dir entries) →
  run_SU2_fsi ext config_path wkdir w = (r, w') →
  ∃ t, trace w' = trace w ++ t
    ∧ ((is_Raise r ∧ outside_calls t = [])
       ∨ (outside_calls t = fsi_calls wkdir
          ∧ ∃ cfg back, t = fsi_events w config_path wkdir cfg ++ back
                        ∧ outside_calls back = []))
    ∧ (r = Ok tt → outside_calls t = fsi_calls wkdir)
    ∧ ((∃ cfg, nodes w !! from_dir w wkdir config_path = Some (File cfg)) →
       ¬ is_dir (nodes w) (from_dir w wkdir (path_join wkdir "ConfigDEF.cfg")) →
       ¬ is_dir (nodes w) (from_dir w wkdir (path_join wkdir "ConfigCFD.cfg")) →
       outside_calls t = fsi_calls wkdir).
Proof.
  intros Hdir Hrun.
  apply (fsi_cases _ _ _ _ _ _ _ Hdir) in Hrun
    as [(Hr & Ht & Hno) | (cfg & Hcfg & [(Hr & Ht & Hd) | [(Hr & Ht & Hd) | (back & Ht & Hback)]])].
  - eexists. split; [done|]. split; [by left|]. split.
    + intros ->. done.
    + intros [cfg Hcfg]. by destruct (Hno cfg).
  - eexists. split; [done|]. split; [by left|]. split.
    + intros ->. done.
    + done.
  - eexists. split; [done|]. split; [by left|]. split.
    + intros ->. done.
    + done.
  - assert (outside_calls (fsi_events w config_path wkdir cfg ++ back) = fsi_calls wkdir
            ∧ outside_calls back = []) as [Hcalls Hnone].
    { rewrite outside_calls_app.
      destruct Hback as [[-> _] | (-> & _)]; by rewrite ?app_nil_r. }
    eexists. split; [done|]. split; [right; eauto|]. done.
Qed.

Lemma fsi_def_cfd_sol_then_extract_witness :
  nodes Demo.w0 !! resolve Demo.w0 "/w"
  = Some (Dir ["Case00_alt0_mach0.3"; "notes.txt"; "Case01_alt0_mach0.5"])
  ∧ ∃ t, trace (run_SU2_fsi Demo.quiet "/w/ConfigCFD.cfg" "/w" Demo.w0).2
         = trace Demo.w0 ++ t
    ∧ ((is_Raise (run_SU2_fsi Demo.quiet "/w/ConfigCFD.cfg" "/w" Demo.w0).1
        ∧ outside_calls t = [])
       ∨ (outside_calls t = fsi_calls "/w"
          ∧ ∃ cfg back, t = fsi_events Demo.w0 "/w/ConfigCFD.cfg" "/w" cfg ++ back
                        ∧ outside_calls back = []))
    ∧ ((run_SU2_fsi Demo.quiet "/w/ConfigCFD.cfg" "/w" Demo.w0).1 = Ok tt →
       outside_calls t = fsi_calls "/w")
    ∧ ((∃ cfg, nodes Demo.w0 !! from_dir Demo.w0 "/w" "/w/ConfigCFD.cfg"
               = Some (File cfg)) →
       ¬ is_dir (nodes Demo.w0) (from_dir Demo.w0 "/w" (path_join "/w" "ConfigDEF.cfg")) →
       ¬ is_dir (nodes Demo.w0) (from_dir Demo.w0 "/w" (path_join "/w" "ConfigCFD.cfg")) →
       outside_calls t = fsi_calls "/w").
Proof.
  split; [vm_compute; reflexivity|].
  eapply (fsi_def_cfd_sol_then_extract Demo.quiet "/w/ConfigCFD.cfg" "/w" Demo.w0).
  - vm_compute; reflexivity.
  - apply surjective_pairing.
Defined.

Lemma cfg_for_def_changed cfg : changed_only def_updates cfg (cfg_for_def cfg).
Proof.
  split.
  - intros k v Hin. unfold def_updates in Hin.
    rewrite !elem_of_cons, elem_of_nil in Hin.
    unfold cfg_for_def.
    destruct Hin as [[= -> ->] | [[= -> ->] | [[= -> ->] | [[= -> ->] | [[= -> ->] | []]]]]];
      by simplify_map_eq.
  - intros k Hout. unfold def_updates in Hout. cbn in Hout.
    rewrite !not_elem_of_cons in Hout.
    destruct Hout as (? & ? & ? & ? & ? & _).
    unfold cfg_for_def. by rewrite !lookup_insert_ne.
Qed.

Lemma cfg_for_cfd_changed cfg : changed_only cfd_updates cfg (cfg_for_cfd cfg).
Proof.
  split.
  - intros k v Hin. unfold cfd_updates in Hin.
    rewrite !elem_of_cons, elem_of_nil in Hin.
    unfold cfg_for_cfd. destruct Hin as [[= -> ->] | []]. by simplify_map_eq.
  - intros k Hout. unfold cfd_updates in Hout. cbn in Hout.
    rewrite !not_elem_of_cons in Hout. destruct Hout as (? & _).
    unfold cfg_for_cfd. by rewrite lookup_insert_ne.
Qed.

(** C2, as amended. When [run_SU2_fsi] can read [config_path] and write its
    two files, it writes to ["ConfigDEF.cfg"] the configuration parsed from
    [config_path] at entry with exactly five keys set, and to
    ["ConfigCFD.cfg"] the configuration parsed from [config_path] by the
    second read with exactly one key set; the second read yields the
    configuration of entry unless [config_path] names, under whatever
    spelling, the file the generated ["ConfigDEF.cfg"] is written to, in
    which case it yields the one just written there.  Every other key-value
    pair is unchanged. *)
Theorem fsi_written_configs ext config_path wkdir w entries cfg r w' :
  nodes w !! resolve w wkdir = Some (Dir entries) →
  nodes w !! from_dir w wkdir config_path = Some (File cfg) →
  ¬ is_dir (nodes w) (from_dir w wkdir (path_join wkdir "ConfigDEF.cfg")) →
  ¬ is_dir (nodes w) (from_dir w wkdir (path_join wkdir "ConfigCFD.cfg")) →
  run_SU2_fsi ext config_path wkdir w = (r, w') →
  ∃ t cfg_def cfg_cfd,
    trace w' = trace w ++ t
    ∧ writes t = [ (path_join wkdir "ConfigDEF.cfg", cfg_def);
                   (path_join wkdir "ConfigCFD.cfg", cfg_cfd) ]
    ∧ changed_only def_updates cfg cfg_def
    ∧ changed_only cfd_updates (second_read w config_path wkdir cfg) cfg_cfd
    ∧ (from_dir w wkdir config_path
       ≠ from_dir w wkdir (path_join wkdir "ConfigDEF.cfg") →
       changed_only cfd_updates cfg cfg_cfd)
    ∧ (from_dir w wkdir config_path
       = from_dir w wkdir (path_join wkdir "ConfigDEF.cfg") →
       changed_only cfd_updates cfg_def cfg_cfd).
Proof.
  intros Hdir Hcfg Hdef Hcfd Hrun.
  apply (fsi_cases _ _ _ _ _ _ _ Hdir) in Hrun
    as [(_ & _ & Hno) | (cfg' & Hcfg' & [(_ & _ & Hd) | [(_ & _ & Hd) | (back & Ht & Hback)]])];
    [by destruct (Hno cfg) | done | done |].
  assert (cfg' = cfg) as -> by congruence.
  exists (fsi_events w config_path wkdir cfg ++ back), (cfg_for_def cfg),
    (cfg_for_cfd (second_read w config_path wkdir cfg)).
  split; [done|]. split.
  { unfold writes. rewrite omap_app.
    destruct Hback as [[-> _] | (-> & _)]; reflexivity. }
  split; [apply cfg_for_def_changed|]. split; [apply cfg_for_cfd_changed|].
  unfold second_read. split; intros Hpath.
  - rewrite decide_False by done. apply cfg_for_cfd_changed.
  - rewrite decide_True by done. apply cfg_for_cfd_changed.
Qed.

Lemma fsi_written_configs_witness :
  nodes Demo.w0 !! from_dir Demo.w0 "/w" "/w/ConfigCFD.cfg" = Some (File Demo.cfg0)
  ∧ ∃ t cfg_def cfg_cfd,
      trace (run_SU2_fsi Demo.quiet "/w/ConfigCFD.cfg" "/w" Demo.w0).2
      = trace Demo.w0 ++ t
      ∧ writes t = [ (path_join "/w" "ConfigDEF.cfg", cfg_def);
                     (path_join "/w" "ConfigCFD.cfg", cfg_cfd) ]
      ∧ changed_only def_updates Demo.cfg0 cfg_def
      ∧ changed_only cfd_updates
          (second_read Demo.w0 "/w/ConfigCFD.cfg" "/w" Demo.cfg0) cfg_cfd
      ∧ (from_dir Demo.w0 "/w" "/w/ConfigCFD.cfg"
         ≠ from_dir Demo.w0 "/w" (path_join "/w" "ConfigDEF.cfg") →
         changed_only cfd_updates Demo.cfg0 cfg_cfd)
      ∧ (from_dir Demo.w0 "/w" "/w/ConfigCFD.cfg"
         = from_dir Demo.w0 "/w" (path_join "/w" "ConfigDEF.cfg") →
         changed_only cfd_updates cfg_def cfg_cfd).
Proof.
  split; [vm_compute; reflexivity|].
  eapply (fsi_written_configs Demo.quiet "/w/ConfigCFD.cfg" "/w" Demo.w0).
  - vm_compute; reflexivity.
  - vm_compute; reflexivity.
  - intros [entries Hd]. vm_compute in Hd. discriminate.
  - intros [entries Hd]. vm_compute in Hd. discriminate.
  - apply surjective_pairing.
Defined.

(** C2, as stated, fails when [config_path] is the generated
    ["ConfigDEF.cfg"] itself: the configuration written to ["ConfigCFD.cfg"]
    then also has the five keys of the deformation, which the configuration
    parsed at entry does not have. *)
Lemma fsi_written_configs_counterexample :
  nodes Demo.w0 !! resolve Demo.w0 "/w"
  = Some (Dir ["Case00_alt0_mach0.3"; "notes.txt"; "Case01_alt0_mach0.5"])
  ∧ nodes Demo.w0 !! from_dir Demo.w0 "/w" "/w/ConfigDEF.cfg" = Some (File Demo.cfg0)
  ∧ ∃ cfg_cfd,
      writes (trace (run_SU2_fsi Demo.quiet "/w/ConfigDEF.cfg" "/w" Demo.w0).2)
      = [ ("/w/ConfigDEF.cfg", cfg_for_def Demo.cfg0);
          ("/w/ConfigCFD.cfg", cfg_cfd) ]
      ∧ cfg_cfd !! "DV_KIND" = Some (VStr "SURFACE_FILE")
      ∧ Demo.cfg0 !! "DV_KIND" = None
      ∧ ¬ changed_only cfd_updates Demo.cfg0 cfg_cfd.
Proof.
  split; [vm_compute; reflexivity|]. split; [vm_compute; reflexivity|].
  exists (cfg_for_cfd (cfg_for_def Demo.cfg0)).
  split; [vm_compute; reflexivity|]. split; [vm_compute; reflexivity|].
  split; [vm_compute; reflexivity|].
  intros [_ Hother]. specialize (Hother "DV_KIND").
  assert ("DV_KIND" ∉ cfd_updates.*1) as Hout.
  { cbn. rewrite not_elem_of_cons. split; [done | apply not_elem_of_nil]. }
  apply Hother in Hout. vm_compute in Hout. discriminate.
Qed.

Lemma run_case_with_status status ext wkdir dir v w :
  run_case (with_status status ext) wkdir dir v w = run_case ext wkdir dir v w.
Proof. reflexivity. Qed.

Lemma for_cases_with_status status ext wkdir dirs v w :
  for_ dirs (run_case (with_status status ext) wkdir) v w
  = for_ dirs (run_case ext wkdir) v w.
Proof.
  revert v w. induction dirs as [|dir dirs IH]; intros v w; [reflexivity|].
  cbn [for_]. rewrite !bind_unfold, run_case_with_status.
  destruct (run_case ext wkdir dir v w) as [[v1|e] w1]; [apply IH | reflexivity].
Qed.

(** C1, as amended. The run functions discard the exit status of the
    executables they invoke: whatever status each invocation returns, a run
    function returns the same result, [None] or the same exception, and
    leaves the same world. *)
Theorem exit_status_discarded ext status config_path wkdir w :
  run_SU2_single (with_status status ext) config_path wkdir w
  = run_SU2_single ext config_path wkdir w
  ∧ run_SU2_multi (with_status status ext) wkdir w = run_SU2_multi ext wkdir w
  ∧ run_SU2_fsi (with_status status ext) config_path wkdir w
    = run_SU2_fsi ext config_path wkdir w.
Proof.
  split; [reflexivity|]. split; [|reflexivity].
  unfold run_SU2_multi. rewrite !bind_unfold.
  destruct (os_path_exists wkdir w) as [[found|e] w1]; [|reflexivity].
  rewrite !bind_unfold.
  destruct (raise_if _ _ w1) as [[[]|e] w2]; [|reflexivity].
  rewrite !getcwd_bind, !bind_unfold.
  destruct (os_chdir wkdir w2) as [[[]|e] w3]; [|reflexivity].
  rewrite !bind_unfold.
  destruct (os_listdir wkdir w3) as [[entries|e] w4]; [|reflexivity].
  cbv zeta. rewrite !bind_unfold.
  destruct (raise_if _ _ w4) as [[[]|e] w5]; [|reflexivity].
  by rewrite !bind_unfold, for_cases_with_status.
Qed.

(** C1, as stated, fails: with executables that all return status 1 the run
    functions return [None], as they do with executables that return 0. *)
Lemma exit_status_discarded_counterexample :
  soft_status Demo.failing "SU2_CFD" "/w/ConfigCFD.cfg" "/w" "/w" Demo.fs0 = 1%Z
  ∧ soft_status Demo.quiet "SU2_CFD" "/w/ConfigCFD.cfg" "/w" "/w" Demo.fs0 = 0%Z
  ∧ (run_SU2_single Demo.failing "/w/ConfigCFD.cfg" "/w" Demo.w0).1 = Ok tt
  ∧ (run_SU2_single Demo.quiet "/w/ConfigCFD.cfg" "/w" Demo.w0).1 = Ok tt
  ∧ (run_SU2_multi Demo.failing "/w2" Demo.w0).1 = Ok tt
  ∧ (run_SU2_multi Demo.quiet "/w2" Demo.w0).1 = Ok tt
  ∧ (run_SU2_fsi Demo.failing "/w/ConfigCFD.cfg" "/w" Demo.w0).1 = Ok tt
  ∧ (run_SU2_fsi Demo.quiet "/w/ConfigCFD.cfg" "/w" Demo.w0).1 = Ok tt.
Proof. repeat split; vm_compute; reflexivity. Qed.

(** ** Names *)

(** [str_in] is the substring test. *)
Lemma str_in_spec sub s : str_in sub s = true ↔ ∃ a b, s = a +:+ sub +:+ b.
Proof.
  induction s as [|c s IH]; cbn [str_in]; rewrite orb_true_iff, prefix_app.
  - split.
    + intros [[b Hb] | [=]]. by exists "", b.
    + intros ([|c a] & b & Hab); [left; by exists b | done].
  - rewrite IH. split.
    + intros [[b Hb] | (a & b & Hab)]; [by exists "", b|].
      exists (String c a), b. by rewrite Hab.
    + intros ([|c' a] & b & Hab); [left; by exists b|].
      right. exists a, b. by injection Hab.
Qed.

Lemma for_app {A S : Type} (l1 l2 : list A) (body : A → S → M S) (v : S) w :
  for_ (l1 ++ l2) body v w = (for_ l1 body v ≫= for_ l2 body) w.
Proof.
  revert v w. induction l1 as [|x l1 IH]; intros v w; cbn [for_ app].
  - by rewrite ret_bind.
  - rewrite bind_assoc, !bind_unfold.
    destruct (body x v w) as [[v1|e] w1]; [apply IH | reflexivity].
Qed.

(** The directories the loop has gone through have had their [SU2_CFD] run. *)
Lemma for_cases_Ok ext wkdir dirs v w v' w' :
  for_ dirs (run_case ext wkdir) v w = (Ok v', w') →
  ∃ t, trace w' = trace w ++ t
       ∧ ∀ dir, dir ∈ dirs → cfd_event (path_join wkdir dir) ∈ t.
Proof.
  revert v w. induction dirs as [|dir dirs IH]; intros v w; cbn [for_].
  - intros [= <- <-]. exists []. rewrite app_nil_r. split; [done|].
    intros dir []%elem_of_nil.
  - rewrite bind_unfold.
    destruct (run_case ext wkdir dir v w) as [[v1|e] w1] eqn:Hcase; [|done].
    apply run_case_cases in Hcase. cbv zeta in Hcase.
    destruct Hcase as [_ [([] & _) | [([] & _)
      | (files & _ & Hdir & [([] & _) | [(_ & [=] & _) | (Hin & back & Ht & _)]])]]].
    intros (t & Ht' & Hcfd)%IH.
    eexists. split; [by rewrite Ht', Ht, <- !app_assoc|].
    intros d [->|Hd]%elem_of_cons.
    + rewrite !elem_of_app, !list_elem_of_singleton. auto 10.
    + rewrite !elem_of_app. auto 10.
Qed.

Lemma run_case_no_cfd ext wkdir dir v w files :
  is_dir (nodes w) (resolve w (path_join wkdir dir)) →
  nodes w !! listing_key w (path_join wkdir dir) = Some (Dir files) →
  NoDup files →
  "ConfigCFD.cfg" ∉ files →
  ∃ w', run_case ext wkdir dir v w = (Raise no_config_cfd, w')
        ∧ trace w' = trace w ++ [Chdir (path_join wkdir dir)]
                     ++ def_events (path_join wkdir dir) files.
Proof.
  intros [entries Hent] Hdir Hnd Hout.
  destruct (run_case ext wkdir dir v w) as [r w'] eqn:Hcase.
  exists w'. apply run_case_cases in Hcase. cbv zeta in Hcase.
  destruct Hcase as [_ [(_ & _ & Hnone) | [(_ & _ & _ & Hnone) | (files' & _ & Hdir' & Hcase)]]];
    [by destruct (Hnone entries) | by destruct (Hnone files) |].
  assert (files' = files) as -> by congruence.
  destruct Hcase as [(_ & _ & Hdup) | [(_ & -> & Ht) | (Hin & _)]]; done.
Qed.

Lemma def_events_elem config_dir files name :
  name ∈ def_names → name ∈ files →
  Exec "SU2_DEF" (path_join config_dir name) config_dir ∈ def_events config_dir files.
Proof.
  unfold def_names, def_events. rewrite !elem_of_cons, elem_of_nil.
  intros [-> | [-> | [-> | []]]] Hin; rewrite !elem_of_app;
    [left | right; left | right; right];
    rewrite bool_decide_true by done; apply list_elem_of_singleton; done.
Qed.




(** C9. The failure of [run_SU2_multi] on a case directory without
    ["ConfigCFD.cfg"] is not atomic: the case directories before it have been
    processed, each with its [SU2_CFD] run, and the [SU2_DEF] runs of the
    deformation files the directory does contain are made before the
    [ValueError] of the missing ["ConfigCFD.cfg"] is raised. *)
Theorem multi_failure_not_atomic ext wkdir w entries before dir after v1 w1 files :
  is_dir (nodes w) (resolve w wkdir) →
  nodes w !! listing_key w wkdir = Some (Dir entries) →
  case_dirs entries = before ++ dir :: after →
  for_ before (run_case ext wkdir) no_locals (entered w wkdir) = (Ok v1, w1) →
  is_dir (nodes w1) (resolve w1 (path_join wkdir dir)) →
  nodes w1 !! listing_key w1 (path_join wkdir dir) = Some (Dir files) →
  NoDup files →
  "ConfigCFD.cfg" ∉ files →
  ∃ t w',
    run_SU2_multi ext wkdir w = (Raise no_config_cfd, w')
    ∧ trace w1 = trace w ++ [Chdir wkdir] ++ t
    ∧ (∀ d, d ∈ before → cfd_event (path_join wkdir d) ∈ t)
    ∧ trace w' = trace w1 ++ [Chdir (path_join wkdir dir)]
                 ++ def_events (path_join wkdir dir) files
    ∧ (∀ name, name ∈ def_names → name ∈ files →
               Exec "SU2_DEF" (path_join (path_join wkdir dir) name)
                 (path_join wkdir dir) ∈ trace w').
Proof.
  intros [ents Hdir] Hls Hdirs Hbefore Hcase_dir Hfiles Hnd Hout.
  destruct (run_case_no_cfd ext wkdir dir v1 w1 files Hcase_dir Hfiles Hnd Hout)
    as (w' & Hcase & Ht').
  destruct (for_cases_Ok _ _ _ _ _ _ _ Hbefore) as (t & Ht & Hcfd).
  exists t, w'. split; [|split; [|split; [|split]]].
  - unfold run_SU2_multi.
    rewrite (exists_bind _ _ _ _ Hdir). wsimpl. mrun.
    rewrite (chdir_bind _ _ _ _ Hdir).
    rewrite (listdir_bind _ _ _ entries) by done. cbv zeta.
    rewrite Hdirs. rewrite bool_decide_false by (by destruct before).
    cbn [raise_if]. rewrite ret_bind, bind_unfold, for_app.
    rewrite (bind_Ok _ _ _ _ _ Hbefore). cbn [for_].
    rewrite bind_unfold, Hcase. reflexivity.
  - rewrite Ht, trace_entered. by rewrite <- app_assoc.
  - done.
  - done.
  - intros name Hname Hin. rewrite Ht', !elem_of_app. right. right.
    by apply def_events_elem.
Qed.

Lemma multi_failure_not_atomic_witness :
  ∃ t w',
    run_SU2_multi Demo.quiet "/w" Demo.w0 = (Raise no_config_cfd, w')
    ∧ trace (for_ ["Case00_alt0_mach0.3"] (run_case Demo.quiet "/w") no_locals
               (entered Demo.w0 "/w")).2
      = trace Demo.w0 ++ [Chdir "/w"] ++ t
    ∧ (∀ d, d ∈ ["Case00_alt0_mach0.3"] → cfd_event (path_join "/w" d) ∈ t)
    ∧ trace w'
      = trace (for_ ["Case00_alt0_mach0.3"] (run_case Demo.quiet "/w") no_locals
                 (entered Demo.w0 "/w")).2
        ++ [Chdir (path_join "/w" "Case01_alt0_mach0.5")]
        ++ def_events (path_join "/w" "Case01_alt0_mach0.5")
             ["ConfigDEF_rot.cfg"; "ConfigDEF.cfg"]
    ∧ (∀ name, name ∈ def_names → name ∈ ["ConfigDEF_rot.cfg"; "ConfigDEF.cfg"] →
               Exec "SU2_DEF" (path_join (path_join "/w" "Case01_alt0_mach0.5") name)
                 (path_join "/w" "Case01_alt0_mach0.5") ∈ trace w').
Proof.
  apply (multi_failure_not_atomic Demo.quiet "/w" Demo.w0
           ["Case00_alt0_mach0.3"; "notes.txt"; "Case01_alt0_mach0.5"]
           ["Case00_alt0_mach0.3"] "Case01_alt0_mach0.5" []
           (Locals true true false false
              (Some "/w/Case00_alt0_mach0.3/ConfigCFD.cfg")
              (Some "/w/Case00_alt0_mach0.3/ConfigDEF.cfg") None None)
           (for_ ["Case00_alt0_mach0.3"] (run_case Demo.quiet "/w") no_locals
              (entered Demo.w0 "/w")).2
           ["ConfigDEF_rot.cfg"; "ConfigDEF.cfg"]).
  - eexists. vm_compute; reflexivity.
  - vm_compute; reflexivity.
  - vm_compute; reflexivity.
  - vm_compute; reflexivity.
  - eexists. vm_compute; reflexivity.
  - vm_compute; reflexivity.
  - apply NoDup_cons. split; [by intros [=]%list_elem_of_singleton|].
    apply NoDup_singleton.
  - rewrite !elem_of_cons, elem_of_nil. by intros [[=] | [[=] | []]].
Defined.




Section entry_steps.
Context {B : Type}.

Lemma log_info_bind msg (f : unit → M B) w :
  (log_info msg ≫= f) w
  = f tt (World (nodes w) (canon w) (cwd w) (trace w) (log w ++ [msg]) (stdout w)).
Proof. reflexivity. Qed.

Lemma open_tixi_bind cpacs_path (f : string → M B) w :
  (open_tixi cpacs_path ≫= f) w = f cpacs_path (emit (OpenTixi cpacs_path) w).
Proof. reflexivity. Qed.

Lemma get_wkdir_bind ext tixi (f : string → M B) w :
  (get_wkdir_or_create_new ext tixi ≫= f) w
  = f (wkdir_or_new ext tixi (nodes w)).1
      (emit (GetWkdir tixi) (set_nodes (wkdir_or_new ext tixi (nodes w)).2 w)).
Proof.
  unfold get_wkdir_or_create_new. rewrite bind_unfold.
  by destruct (wkdir_or_new ext tixi (nodes w)).
Qed.

Lemma generate_bind ext cpacs_path cpacs_out_path wkdir (f : unit → M B) w :
  (generate_su2_config ext cpacs_path cpacs_out_path wkdir ≫= f) w
  = f tt (emit (GenerateConfig cpacs_path cpacs_out_path wkdir)
            (set_nodes (generate_effect ext cpacs_path cpacs_out_path wkdir (nodes w)) w)).
Proof. reflexivity. Qed.

Lemma results_bind ext cpacs_path cpacs_out_path wkdir (f : unit → M B) w :
  (get_su2_results ext cpacs_path cpacs_out_path wkdir ≫= f) w
  = f tt (emit (GetResults cpacs_path cpacs_out_path wkdir)
            (set_nodes (results_effect ext cpacs_path cpacs_out_path wkdir (nodes w)) w)).
Proof. reflexivity. Qed.
End entry_steps.

Lemma get_wkdir_run ext tixi w :
  get_wkdir_or_create_new ext tixi w
  = (Ok (wkdir_or_new ext tixi (nodes w)).1,
     emit (GetWkdir tixi) (set_nodes (wkdir_or_new ext tixi (nodes w)).2 w)).
Proof.
  unfold get_wkdir_or_create_new. by destruct (wkdir_or_new ext tixi (nodes w)).
Qed.

(** C7. Started without a command-line argument, the program logs its start,
    opens the CPACS file, gets its working directory, and then performs
    three steps in this order, each in the world the step before has left:
    the configuration generation [generate_su2_config], the multi-case run
    [run_SU2_multi], and the result extraction [get_su2_results] of the
    sibling module, which it reaches when the multi-case run returns, before
    it logs its end; an exception of the multi-case run ends the program.
    It performs no other step. *)
Theorem main_without_argument ext prog w :
  ∃ w_log tixi w_tixi wkdir w_wkdir w_gen r w_multi w_res t_multi,
    log_info (start_message ext) w = (Ok tt, w_log)
    ∧ open_tixi (cpacs_path ext) w_log = (Ok tixi, w_tixi)
    ∧ get_wkdir_or_create_new ext tixi w_tixi = (Ok wkdir, w_wkdir)
    ∧ generate_su2_config ext (cpacs_path ext) (cpacs_out_path ext) wkdir w_wkdir
      = (Ok tt, w_gen)
    ∧ run_SU2_multi ext wkdir w_gen = (r, w_multi)
    ∧ get_su2_results ext (cpacs_path ext) (cpacs_out_path ext) wkdir w_multi
      = (Ok tt, w_res)
    ∧ main ext [prog] w
      = match r with
        | Ok _ => log_info (end_message ext) w_res
        | Raise e => (Raise e, w_multi)
        end
    ∧ trace w_multi = trace w_gen ++ t_multi
    ∧ trace (main ext [prog] w).2
      = trace w ++ [OpenTixi (cpacs_path ext); GetWkdir tixi]
        ++ [GenerateConfig (cpacs_path ext) (cpacs_out_path ext) wkdir]
        ++ t_multi
        ++ (if r is Ok _
            then [GetResults (cpacs_path ext) (cpacs_out_path ext) wkdir] else []).
Proof.
  unfold main. cbv zeta.
  fold (cpacs_path ext) (cpacs_out_path ext) (start_message ext) (end_message ext).
  rewrite log_info_bind, open_tixi_bind.
  rewrite bool_decide_false by (cbn; lia).
  rewrite !bind_assoc, get_wkdir_bind. cbn [nodes emit].
  set (wkdir := (wkdir_or_new ext (cpacs_path ext) (nodes w)).1).
  rewrite !bind_assoc, generate_bind.
  match goal with |- context [(_ ≫= _) ?x] => set (w_gen := x) end.
  rewrite bind_assoc, bind_unfold.
  destruct (run_SU2_multi ext wkdir w_gen) as [r w_multi] eqn:Hmulti.
  destruct (multi_trace _ _ _ _ _ Hmulti) as (t_multi & Ht).
  exists (log_info (start_message ext) w).2, (cpacs_path ext),
    (emit (OpenTixi (cpacs_path ext)) (log_info (start_message ext) w).2),
    wkdir,
    (get_wkdir_or_create_new ext (cpacs_path ext)
       (emit (OpenTixi (cpacs_path ext)) (log_info (start_message ext) w).2)).2,
    w_gen, r, w_multi,
    (get_su2_results ext (cpacs_path ext) (cpacs_out_path ext) wkdir w_multi).2,
    t_multi.
  split; [reflexivity|]. split; [reflexivity|].
  split; [by rewrite get_wkdir_run|].
  split; [by rewrite get_wkdir_run|].
  split; [done|]. split; [reflexivity|].
  split; [by destruct r as [[]|e]|].
  split; [done|].
  destruct r as [[]|e]; cbn [snd]; [rewrite results_bind|];
    cbn [log_info trace emit set_nodes snd]; rewrite Ht; unfold w_gen;
    cbn [trace emit set_nodes]; rewrite <- ?app_assoc; cbn [app];
    by rewrite ?app_nil_r.
Qed.

Lemma main_without_argument_witness :
  main Demo.to_w2 ["su2run.py"] Demo.w0
  = (Ok tt, (main Demo.to_w2 ["su2run.py"] Demo.w0).2)
  ∧ trace (main Demo.to_w2 ["su2run.py"] Demo.w0).2
    = [OpenTixi "/opt/SU2Run/ToolInput/ToolInput.xml";
       GetWkdir "/opt/SU2Run/ToolInput/ToolInput.xml";
       GenerateConfig "/opt/SU2Run/ToolInput/ToolInput.xml"
         "/opt/SU2Run/ToolOutput/ToolOutput.xml" "/w2";
       Chdir "/w2"; Chdir "/w2/Case0";
       Exec "SU2_CFD" "/w2/Case0/ConfigCFD.cfg" "/w2/Case0"; Chdir "/w2";
       GetResults "/opt/SU2Run/ToolInput/ToolInput.xml"
         "/opt/SU2Run/ToolOutput/ToolOutput.xml" "/w2"]
  ∧ ∃ w_log tixi w_tixi wkdir w_wkdir w_gen r w_multi w_res t_multi,
      log_info (start_message Demo.to_w2) Demo.w0 = (Ok tt, w_log)
      ∧ open_tixi (cpacs_path Demo.to_w2) w_log = (Ok tixi, w_tixi)
      ∧ get_wkdir_or_create_new Demo.to_w2 tixi w_tixi = (Ok wkdir, w_wkdir)
      ∧ generate_su2_config Demo.to_w2 (cpacs_path Demo.to_w2)
          (cpacs_out_path Demo.to_w2) wkdir w_wkdir
        = (Ok tt, w_gen)
      ∧ run_SU2_multi Demo.to_w2 wkdir w_gen = (r, w_multi)
      ∧ get_su2_results Demo.to_w2 (cpacs_path Demo.to_w2)
          (cpacs_out_path Demo.to_w2) wkdir w_multi
        = (Ok tt, w_res)
      ∧ main Demo.to_w2 ["su2run.py"] Demo.w0
        = match r with
          | Ok _ => log_info (end_message Demo.to_w2) w_res
          | Raise e => (Raise e, w_multi)
          end
      ∧ trace w_multi = trace w_gen ++ t_multi
      ∧ trace (main Demo.to_w2 ["su2run.py"] Demo.w0).2
        = trace Demo.w0
          ++ [OpenTixi (cpacs_path Demo.to_w2); GetWkdir tixi]
          ++ [GenerateConfig (cpacs_path Demo.to_w2) (cpacs_out_path Demo.to_w2) wkdir]
          ++ t_multi
          ++ (if r is Ok _
              then [GetResults (cpacs_path Demo.to_w2) (cpacs_out_path Demo.to_w2) wkdir]
              else []).
Proof.
  split; [vm_compute; reflexivity|]. split; [vm_compute; reflexivity|].
  apply (main_without_argument Demo.to_w2 "su2run.py" Demo.w0).
Defined.

(** * Further properties *)

(** ** The body of the loop, step by step *)

Lemma chdir_Raise p w e w' :
  os_chdir p w = (Raise e, w') →
  w' = w ∧ (e = NotADirectoryError p ∨ e = FileNotFoundError p).
Proof.
  unfold os_chdir. destruct (nodes w !! resolve w p) as [[entries|cfg]|];
    intros [= <- <-]; auto.
Qed.

Lemma listdir_Raise p w e w' :
  os_listdir p w = (Raise e, w') →
  w' = w ∧ (e = NotADirectoryError p ∨ e = FileNotFoundError p).
Proof.
  unfold os_listdir. destruct (nodes w !! resolve w p) as [[entries|cfg]|];
    intros [= <- <-]; auto.
Qed.

Lemma scan_Raise config_dir files v w e w' :
  for_ files (scan_file config_dir) v w = (Raise e, w') →
  ∃ name, name ∈ config_names ∧ name ∈ files ∧ e = more_than_one name.
Proof.
  revert v. induction files as [|file files IH]; intros v; cbn [for_]; [done|].
  rewrite bind_unfold.
  destruct (scan_file config_dir file v w) as [r w1] eqn:Hfile.
  apply scan_file_inv in Hfile as [-> Hfile].
  destruct Hfile as [[_ ->] | [(Hin & _ & ->) | (_ & _ & v2 & -> & _)]].
  - intros (name & ? & ? & ?)%IH. exists name. by rewrite elem_of_cons; auto.
  - intros [= <- <-]. exists file. by rewrite elem_of_cons; auto.
  - intros (name & ? & ? & ?)%IH. exists name. by rewrite elem_of_cons; auto.
Qed.

(** The body of the loop on a directory that cannot be entered. *)
Lemma run_case_no_dir ext wkdir dir v w :
  (∀ files, nodes w !! resolve w (path_join wkdir dir) ≠ Some (Dir files)) →
  ∃ e, run_case ext wkdir dir v w = (Raise e, w)
       ∧ (e = NotADirectoryError (path_join wkdir dir)
          ∨ e = FileNotFoundError (path_join wkdir dir)).
Proof.
  intros Hnone. unfold run_case. cbv zeta. rewrite bind_unfold.
  unfold os_chdir.
  destruct (nodes w !! resolve w (path_join wkdir dir)) as [[files|cfg]|] eqn:Hdir;
    [by destruct (Hnone files) | eauto..].
Qed.

(** The body of the loop on a directory that it enters and cannot list. *)
Lemma run_case_no_listing ext wkdir dir v w :
  is_dir (nodes w) (resolve w (path_join wkdir dir)) →
  (∀ files, nodes w !! listing_key w (path_join wkdir dir) ≠ Some (Dir files)) →
  ∃ e, run_case ext wkdir dir v w = (Raise e, entered w (path_join wkdir dir))
       ∧ (e = NotADirectoryError (path_join wkdir dir)
          ∨ e = FileNotFoundError (path_join wkdir dir)).
Proof.
  intros [ents Hent] Hnone. unfold run_case. cbv zeta.
  rewrite (chdir_bind _ _ _ _ Hent), bind_unfold.
  unfold os_listdir.
  change (resolve (entered w (path_join wkdir dir)) (path_join wkdir dir))
    with (listing_key w (path_join wkdir dir)).
  change (nodes (entered w (path_join wkdir dir))) with (nodes w).
  destruct (nodes w !! listing_key w (path_join wkdir dir)) as [[files|cfg]|] eqn:Hdir;
    [by destruct (Hnone files) | eauto..].
Qed.

(** The body of the loop when the scan of the directory raises. *)
Lemma run_case_scan_raise ext wkdir dir v w files e w1 :
  is_dir (nodes w) (resolve w (path_join wkdir dir)) →
  nodes w !! listing_key w (path_join wkdir dir) = Some (Dir files) →
  for_ files (scan_file (path_join wkdir dir)) (reset_flags v)
    (entered w (path_join wkdir dir))
  = (Raise e, w1) →
  run_case ext wkdir dir v w = (Raise e, entered w (path_join wkdir dir)).
Proof.
  intros [ents Hent] Hdir Hscan. pose proof (scan_pure _ _ _ _ _ _ Hscan) as ->.
  unfold run_case. cbv zeta. rewrite (chdir_bind _ _ _ _ Hent).
  rewrite (listdir_bind _ _ _ files) by exact Hdir.
  by rewrite bind_unfold, Hscan.
Qed.

(** The body of the loop after a scan that went through. *)
Lemma run_case_scanned ext wkdir dir v w files v1 w1 :
  is_dir (nodes w) (resolve w (path_join wkdir dir)) →
  nodes w !! listing_key w (path_join wkdir dir) = Some (Dir files) →
  for_ files (scan_file (path_join wkdir dir)) (reset_flags v)
    (entered w (path_join wkdir dir))
  = (Ok v1, w1) →
  run_case ext wkdir dir v w
  = if bool_decide ("ConfigCFD.cfg" ∈ files)
    then (os_chdir wkdir ≫= λ _, mret v1)
           (after_soft ext "SU2_CFD"
              (path_join (path_join wkdir dir) "ConfigCFD.cfg") (path_join wkdir dir)
              (after_defs ext (path_join wkdir dir) files
                 (entered w (path_join wkdir dir))))
    else (Raise no_config_cfd,
          after_defs ext (path_join wkdir dir) files (entered w (path_join wkdir dir))).
Proof.
  set (config_dir := path_join wkdir dir). intros [ents Hent] Hdir Hscan.
  pose proof (scan_pure _ _ _ _ _ _ Hscan) as ->.
  unfold run_case. cbv zeta. fold config_dir.
  rewrite (chdir_bind _ _ _ _ Hent).
  rewrite (listdir_bind _ _ _ files) by exact Hdir.
  rewrite bind_unfold, Hscan.
  destruct (scan_flag _ _ _ _ _ _ "ConfigCFD.cfg" ltac:(by repeat constructor) Hscan) as [Hcfd Hcfdp].
  destruct (scan_flag _ _ _ _ _ _ "ConfigDEF.cfg" ltac:(by repeat constructor) Hscan) as [Hdef Hdefp].
  destruct (scan_flag _ _ _ _ _ _ "ConfigDEF_rot.cfg" ltac:(by repeat constructor) Hscan) as [Hrot Hrotp].
  destruct (scan_flag _ _ _ _ _ _ "ConfigDEF_rot_sym.cfg" ltac:(by repeat constructor) Hscan) as [Hsym Hsymp].
  change (find_config_cfd v1 = bool_decide ("ConfigCFD.cfg" ∈ files)) in Hcfd.
  change (find_config_def v1 = bool_decide ("ConfigDEF.cfg" ∈ files)) in Hdef.
  change (find_config_rot v1 = bool_decide ("ConfigDEF_rot.cfg" ∈ files)) in Hrot.
  change (find_config_rot_sym v1 = bool_decide ("ConfigDEF_rot_sym.cfg" ∈ files)) in Hsym.
  change (path_var "ConfigCFD.cfg" v1) with (config_cfd_path v1) in Hcfdp.
  change (path_var "ConfigDEF.cfg" v1) with (config_def_path v1) in Hdefp.
  change (path_var "ConfigDEF_rot.cfg" v1) with (config_rot_path v1) in Hrotp.
  change (path_var "ConfigDEF_rot_sym.cfg" v1) with (config_rot_sym_path v1) in Hsymp.
  clear Hscan.
  rewrite (run_def_if_bind _ _ _ _ (path_join config_dir "ConfigDEF.cfg"))
    by (rewrite Hdef; intros ?%bool_decide_eq_true; auto).
  rewrite (run_def_if_bind _ _ _ _ (path_join config_dir "ConfigDEF_rot.cfg"))
    by (rewrite Hrot; intros ?%bool_decide_eq_true; auto).
  rewrite (run_def_if_bind _ _ _ _ (path_join config_dir "ConfigDEF_rot_sym.cfg"))
    by (rewrite Hsym; intros ?%bool_decide_eq_true; auto).
  rewrite Hcfd, Hdef, Hrot, Hsym. fold (after_defs ext config_dir files).
  destruct (decide ("ConfigCFD.cfg" ∈ files)) as [Hin|Hout].
  - rewrite !bool_decide_true by done. rewrite Hcfdp by done.
    cbn [local_var negb raise_if]. by mrun.
  - rewrite !bool_decide_false by done. cbn [negb raise_if]. by mrun.
Qed.

Lemma cwd_after_defs ext config_dir files w :
  cwd (after_defs ext config_dir files w) = cwd w.
Proof. unfold after_defs. by rewrite !cwd_after_def. Qed.

Lemma trace_after_defs ext config_dir files w :
  trace (after_defs ext config_dir files w) = trace w ++ def_events config_dir files.
Proof.
  unfold after_defs, def_events. rewrite !trace_after_def.
  by rewrite <- !app_assoc.
Qed.

Lemma canon_after_defs ext config_dir files w :
  canon (after_defs ext config_dir files w) = canon w.
Proof. unfold after_defs. by rewrite !canon_after_def. Qed.

(** What the body of the loop can raise. *)
Lemma run_case_Raise ext wkdir dir v w e w' :
  run_case ext wkdir dir v w = (Raise e, w') →
  e = NotADirectoryError (path_join wkdir dir)
  ∨ e = FileNotFoundError (path_join wkdir dir)
  ∨ (∃ name, name ∈ config_names ∧ e = more_than_one name)
  ∨ e = no_config_cfd
  ∨ e = NotADirectoryError wkdir
  ∨ e = FileNotFoundError wkdir.
Proof.
  destruct (nodes w !! resolve w (path_join wkdir dir)) as [[ents|cfg]|] eqn:Hent.
  - assert (is_dir (nodes w) (resolve w (path_join wkdir dir))) as Hisdir
      by by exists ents.
    destruct (nodes w !! listing_key w (path_join wkdir dir)) as [[files|cfg]|] eqn:Hdir.
    + destruct (for_ files (scan_file (path_join wkdir dir)) (reset_flags v)
                  (entered w (path_join wkdir dir)))
        as [[v1|e1] w1] eqn:Hscan.
      * rewrite (run_case_scanned _ _ _ _ _ _ _ _ Hisdir Hdir Hscan).
        destruct (bool_decide ("ConfigCFD.cfg" ∈ files)).
        -- rewrite bind_unfold.
           destruct (os_chdir wkdir _) as [[[]|e2] w2] eqn:Hback; [done|].
           apply chdir_Raise in Hback as [_ He2]. intros [= <- _]. tauto.
        -- intros [= <- _]. tauto.
      * rewrite (run_case_scan_raise _ _ _ _ _ _ _ _ Hisdir Hdir Hscan).
        apply scan_Raise in Hscan as (name & Hname & _ & ->).
        intros [= <- _]. eauto 10.
    + destruct (run_case_no_listing ext wkdir dir v w) as (e1 & -> & He1);
        [done | by rewrite Hdir |]. intros [= <- _]. tauto.
    + destruct (run_case_no_listing ext wkdir dir v w) as (e1 & -> & He1);
        [done | by rewrite Hdir |]. intros [= <- _]. tauto.
  - destruct (run_case_no_dir ext wkdir dir v w) as (e1 & -> & He1);
      [by rewrite Hent|]. intros [= <- _]. tauto.
  - destruct (run_case_no_dir ext wkdir dir v w) as (e1 & -> & He1);
      [by rewrite Hent|]. intros [= <- _]. tauto.
Qed.

Lemma for_cases_Raise ext wkdir dirs all v w e w' :
  for_ dirs (run_case ext wkdir) v w = (Raise e, w') →
  (∀ d, d ∈ dirs → d ∈ all) →
  multi_error wkdir all e.
Proof.
  revert v w. induction dirs as [|dir dirs IH]; intros v w; cbn [for_]; [done|].
  rewrite bind_unfold. intros Hrun Hsub.
  assert (dir ∈ all) as Hdir by (apply Hsub; left).
  destruct (run_case ext wkdir dir v w) as [[v1|e1] w1] eqn:Hcase.
  - apply (IH _ _ Hrun). intros d Hd. apply Hsub. by right.
  - injection Hrun as <- _.
    apply run_case_Raise in Hcase
      as [-> | [-> | [(name & Hname & ->) | [-> | [-> | ->]]]]].
    + by apply error_case_file.
    + by apply error_case_gone.
    + by apply error_more_than_one.
    + apply error_no_config_cfd. by intros ->; apply elem_of_nil in Hdir.
    + apply error_wkdir_file.
    + apply error_wkdir_gone.
Qed.

(** How [run_SU2_multi] goes on in a working directory it can enter and
    list. *)
Lemma multi_in_dir ext wkdir w entries :
  is_dir (nodes w) (resolve w wkdir) →
  nodes w !! listing_key w wkdir = Some (Dir entries) →
  run_SU2_multi ext wkdir w
  = (raise_if (bool_decide (case_dirs entries = [])) (no_case_dir wkdir);;
     for_ (case_dirs entries) (run_case ext wkdir) no_locals;;
     mret tt) (entered w wkdir).
Proof.
  intros [ents Hdir] Hls. unfold run_SU2_multi.
  rewrite (exists_bind _ _ _ _ Hdir). wsimpl. mrun.
  rewrite (chdir_bind _ _ _ _ Hdir).
  by rewrite (listdir_bind _ _ _ entries).
Qed.


(** ** Errors of the run functions *)

(** X1. The test at the head of the run functions is [os.path.exists]: when the
    working directory is an existing regular file the test passes, and the
    [os.chdir] that follows raises [NotADirectoryError]; nothing else has
    been done. *)
Theorem wkdir_regular_file ext config_path wkdir w cfg :
  nodes w !! resolve w wkdir = Some (File cfg) →
  run_SU2_single ext config_path wkdir w = (Raise (NotADirectoryError wkdir), w)
  ∧ run_SU2_multi ext wkdir w = (Raise (NotADirectoryError wkdir), w)
  ∧ run_SU2_fsi ext config_path wkdir w = (Raise (NotADirectoryError wkdir), w).
Proof.
  intros Hfile.
  assert (os_chdir wkdir w = (Raise (NotADirectoryError wkdir), w)) as Hcd.
  { unfold os_chdir. by rewrite Hfile. }
  unfold run_SU2_single, run_SU2_multi, run_SU2_fsi.
  rewrite !(exists_bind _ _ _ _ Hfile). wsimpl. mrun.
  by rewrite !(bind_Raise _ _ _ _ _ Hcd).
Qed.

Lemma wkdir_regular_file_witness :
  nodes Demo.w0 !! resolve Demo.w0 "/w/ConfigCFD.cfg" = Some (File Demo.cfg0)
  ∧ run_SU2_single Demo.quiet "/w/ConfigCFD.cfg" "/w/ConfigCFD.cfg" Demo.w0
    = (Raise (NotADirectoryError "/w/ConfigCFD.cfg"), Demo.w0)
  ∧ run_SU2_multi Demo.quiet "/w/ConfigCFD.cfg" Demo.w0
    = (Raise (NotADirectoryError "/w/ConfigCFD.cfg"), Demo.w0)
  ∧ run_SU2_fsi Demo.quiet "/w/ConfigCFD.cfg" "/w/ConfigCFD.cfg" Demo.w0
    = (Raise (NotADirectoryError "/w/ConfigCFD.cfg"), Demo.w0).
Proof.
  split; [vm_compute; reflexivity|].
  apply (wkdir_regular_file Demo.quiet "/w/ConfigCFD.cfg" "/w/ConfigCFD.cfg"
           Demo.w0 Demo.cfg0).
  vm_compute; reflexivity.
Defined.



Lemma case_dirs_elem entries dir :
  dir ∈ case_dirs entries ↔ dir ∈ entries ∧ ∃ a b, dir = a +:+ "Case" +:+ b.
Proof.
  unfold case_dirs. by rewrite !list_elem_of_In, List.filter_In, str_in_spec.
Qed.

(** X3. In a working directory it can enter and list, [run_SU2_multi] raises
    the [OSError] of the missing case directories exactly when no entry of
    the working directory has a name that contains ["Case"]; it has then
    changed to the working directory, where it leaves the process, and has
    done nothing else. *)
Theorem multi_no_case_dir ext wkdir w entries :
  is_dir (nodes w) (resolve w wkdir) →
  nodes w !! listing_key w wkdir = Some (Dir entries) →
  ((run_SU2_multi ext wkdir w).1 = Raise (no_case_dir wkdir)
   ↔ ∀ d, d ∈ entries → ¬ ∃ a b, d = a +:+ "Case" +:+ b)
  ∧ ((run_SU2_multi ext wkdir w).1 = Raise (no_case_dir wkdir) →
     (run_SU2_multi ext wkdir w).2 = entered w wkdir).
Proof.
  intros Hdir Hls. rewrite (multi_in_dir _ _ _ _ Hdir Hls).
  destruct (case_dirs entries) as [|dir dirs] eqn:Hdirs.
  - rewrite bool_decide_true by done. cbn [raise_if]. rewrite raise_bind.
    cbn [fst snd]. split; [|done]. split; [|done].
    intros _ d Hd Hcase.
    assert (d ∈ case_dirs entries) as Hin by by apply case_dirs_elem.
    rewrite Hdirs in Hin. by apply elem_of_nil in Hin.
  - rewrite bool_decide_false by done. cbn [raise_if].
    rewrite ret_bind, bind_unfold.
    assert (dir ∈ case_dirs entries) as Hin by (rewrite Hdirs; left).
    apply case_dirs_elem in Hin as [Hin Hcase].
    destruct (for_ _ _ _ _) as [[v1|e1] w1] eqn:Hloop; cbn [fst snd].
    + split; [|done]. split; [done|]. intros Hnone. by destruct (Hnone dir).
    + assert (e1 ≠ no_case_dir wkdir) as Hne.
      { intros ->.
        pose proof (for_cases_Raise _ _ _ (dir :: dirs) _ _ _ _ Hloop
                      ltac:(done)) as Herr.
        inversion Herr; simplify_eq/=. }
      split; [|by intros [= ?]]. split; [by intros [= ?]|].
      intros Hnone. by destruct (Hnone dir).
Qed.

Lemma multi_no_case_dir_witness :
  is_dir (nodes Demo.w0) (resolve Demo.w0 "/home")
  ∧ nodes Demo.w0 !! listing_key Demo.w0 "/home" = Some (Dir ["w"])
  ∧ (run_SU2_multi Demo.quiet "/home" Demo.w0).1 = Raise (no_case_dir "/home")
  ∧ (run_SU2_multi Demo.quiet "/home" Demo.w0).2 = entered Demo.w0 "/home".
Proof.
  assert (is_dir (nodes Demo.w0) (resolve Demo.w0 "/home")) as Hdir
    by (eexists; vm_compute; reflexivity).
  split; [exact Hdir|]. split; [vm_compute; reflexivity|].
  destruct (multi_no_case_dir Demo.quiet "/home" Demo.w0 ["w"] Hdir)
    as [_ Hworld]; [vm_compute; reflexivity|].
  split; [vm_compute; reflexivity|].
  apply Hworld. vm_compute; reflexivity.
Defined.

(** X15. [run_SU2_multi] looks the working directory up again once it has
    entered it: when [os.listdir(wkdir)] finds no directory from there, as it
    does for a relative path that does not lead to itself, the function
    raises what [os.listdir] raises and leaves the process in the working
    directory, having run nothing. *)
Theorem multi_wkdir_not_listed ext wkdir w :
  is_dir (nodes w) (resolve w wkdir) →
  (∀ entries, nodes w !! listing_key w wkdir ≠ Some (Dir entries)) →
  ∃ e, run_SU2_multi ext wkdir w = (Raise e, entered w wkdir)
       ∧ (e = NotADirectoryError wkdir ∨ e = FileNotFoundError wkdir).
Proof.
  intros [ents Hdir] Hnone. unfold run_SU2_multi.
  rewrite (exists_bind _ _ _ _ Hdir). wsimpl. mrun.
  rewrite (chdir_bind _ _ _ _ Hdir), bind_unfold.
  destruct (os_listdir wkdir (entered w wkdir)) as [[entries|e] w1] eqn:Hls.
  - apply listdir_inv in Hls as [_ [[[] _] | (entries' & Hls & _)]].
    by destruct (Hnone entries').
  - apply listdir_Raise in Hls as [-> He]. eauto.
Qed.

Lemma multi_wkdir_not_listed_witness :
  cwd Demo.w_rel = "/home"
  ∧ resolve Demo.w_rel "w2" = "/home/w2"
  ∧ listing_key Demo.w_rel "w2" = "/home/w2/w2"
  ∧ run_SU2_multi Demo.quiet "w2" Demo.w_rel
    = (Raise (FileNotFoundError "w2"), entered Demo.w_rel "w2")
  ∧ ∃ e, run_SU2_multi Demo.quiet "w2" Demo.w_rel = (Raise e, entered Demo.w_rel "w2")
         ∧ (e = NotADirectoryError "w2" ∨ e = FileNotFoundError "w2").
Proof.
  split; [reflexivity|]. split; [vm_compute; reflexivity|].
  split; [vm_compute; reflexivity|]. split; [vm_compute; reflexivity|].
  apply (multi_wkdir_not_listed Demo.quiet "w2" Demo.w_rel).
  - eexists. vm_compute; reflexivity.
  - intros entries Hls. vm_compute in Hls. discriminate.
Defined.

(** X4. When [run_SU2_multi] fails on a case directory without
    ["ConfigCFD.cfg"], it leaves the process in that case directory: neither
    the directory of entry nor the working directory is restored. *)
Theorem multi_failure_leaves_case_dir ext wkdir w entries before dir after v1 w1 files :
  is_dir (nodes w) (resolve w wkdir) →
  nodes w !! listing_key w wkdir = Some (Dir entries) →
  case_dirs entries = before ++ dir :: after →
  for_ before (run_case ext wkdir) no_locals (entered w wkdir) = (Ok v1, w1) →
  is_dir (nodes w1) (resolve w1 (path_join wkdir dir)) →
  nodes w1 !! listing_key w1 (path_join wkdir dir) = Some (Dir files) →
  NoDup files →
  "ConfigCFD.cfg" ∉ files →
  (run_SU2_multi ext wkdir w).1 = Raise no_config_cfd
  ∧ cwd (run_SU2_multi ext wkdir w).2 = resolve w1 (path_join wkdir dir).
Proof.
  intros Hdir Hls Hdirs Hbefore Hcase_dir Hfiles Hnd Hout.
  rewrite (multi_in_dir _ _ _ _ Hdir Hls), Hdirs.
  rewrite bool_decide_false by (by destruct before). cbn [raise_if].
  rewrite ret_bind, bind_unfold, for_app, (bind_Ok _ _ _ _ _ Hbefore).
  cbn [for_]. rewrite bind_unfold.
  destruct (scan_NoDup (path_join wkdir dir) files (reset_flags v1)
              (entered w1 (path_join wkdir dir))
              Hnd) as [v2 Hscan]; [intros; apply flag_reset|].
  rewrite (run_case_scanned _ _ _ _ _ _ _ _ Hcase_dir Hfiles Hscan).
  rewrite bool_decide_false by done. cbn [fst snd].
  split; [done|]. by rewrite cwd_after_defs.
Qed.

Lemma multi_failure_leaves_case_dir_witness :
  cwd Demo.w0 = "/home"
  ∧ (run_SU2_multi Demo.quiet "/w" Demo.w0).1 = Raise no_config_cfd
  ∧ cwd (run_SU2_multi Demo.quiet "/w" Demo.w0).2 = "/w/Case01_alt0_mach0.5".
Proof.
  split; [reflexivity|].
  apply (multi_failure_leaves_case_dir Demo.quiet "/w" Demo.w0
           ["Case00_alt0_mach0.3"; "notes.txt"; "Case01_alt0_mach0.5"]
           ["Case00_alt0_mach0.3"] "Case01_alt0_mach0.5" []
           (Locals true true false false
              (Some "/w/Case00_alt0_mach0.3/ConfigCFD.cfg")
              (Some "/w/Case00_alt0_mach0.3/ConfigDEF.cfg") None None)
           (for_ ["Case00_alt0_mach0.3"] (run_case Demo.quiet "/w") no_locals
              (entered Demo.w0 "/w")).2
           ["ConfigDEF_rot.cfg"; "ConfigDEF.cfg"]).
  - eexists. vm_compute; reflexivity.
  - vm_compute; reflexivity.
  - vm_compute; reflexivity.
  - vm_compute; reflexivity.
  - eexists. vm_compute; reflexivity.
  - vm_compute; reflexivity.
  - apply NoDup_cons. split; [by intros [=]%list_elem_of_singleton|].
    apply NoDup_singleton.
  - rewrite !elem_of_cons, elem_of_nil. by intros [[=] | [[=] | []]].
Defined.

(** ** What the multi-case run does and does not do *)

Lemma def_events_Forall wkdir dirs dir files :
  dir ∈ dirs →
  Forall (multi_event wkdir dirs) (def_events (path_join wkdir dir) files).
Proof.
  intros Hdir. unfold def_events.
  repeat destruct (bool_decide _); repeat apply Forall_cons_2; try apply Forall_nil_2;
    apply event_def; try done; unfold def_names;
    rewrite !elem_of_cons; auto.
Qed.

Lemma for_cases_events ext wkdir dirs all v w r w' :
  for_ dirs (run_case ext wkdir) v w = (r, w') →
  (∀ d, d ∈ dirs → d ∈ all) →
  ∃ t, trace w' = trace w ++ t ∧ Forall (multi_event wkdir all) t.
Proof.
  revert v w. induction dirs as [|dir dirs IH]; intros v w; cbn [for_].
  - intros [= <- <-] _. exists []. by rewrite app_nil_r.
  - rewrite bind_unfold. intros Hrun Hsub.
    assert (dir ∈ all) as Hdir by (apply Hsub; left).
    assert (∀ d, d ∈ dirs → d ∈ all) as Hsub' by (intros d Hd; apply Hsub; by right).
    destruct (run_case ext wkdir dir v w) as [r1 w1] eqn:Hcase.
    apply run_case_cases in Hcase. cbv zeta in Hcase.
    assert (∃ t1, trace w1 = trace w ++ t1 ∧ Forall (multi_event wkdir all) t1)
      as (t1 & Ht1 & Hall1).
    { destruct Hcase as [_ [(_ & Ht & _) | [(_ & Ht & _)
        | (files & _ & _ & [(_ & Ht & _) | [(_ & _ & Ht) | (_ & back & Ht & Hback)]])]]].
      - exists []. by rewrite app_nil_r.
      - eexists. split; [done|]. apply Forall_singleton. by apply event_chdir_case.
      - eexists. split; [done|]. apply Forall_singleton. by apply event_chdir_case.
      - eexists. split; [done|]. apply Forall_app. split.
        + apply Forall_singleton. by apply event_chdir_case.
        + by apply def_events_Forall.
      - eexists. split; [done|].
        rewrite !Forall_app, !Forall_singleton.
        split; [by apply event_chdir_case|].
        split; [by apply def_events_Forall|].
        split; [by apply event_cfd|].
        destruct Hback as [[-> _] | (-> & _)];
          [apply Forall_nil_2 | apply Forall_singleton, event_chdir_wkdir]. }
    destruct r1 as [v1|e1].
    + destruct (IH _ _ Hrun Hsub') as (t & Ht & Hall).
      exists (t1 ++ t). split; [by rewrite Ht, Ht1, <- app_assoc|].
      by apply Forall_app.
    + injection Hrun as <- <-. eauto.
Qed.

(** X5. Whatever happens, [run_SU2_multi] does nothing to the outside but
    change directory, to the working directory and to its case directories,
    and run [SU2_DEF] and [SU2_CFD] in a case directory on a configuration
    file of that directory: it reads and writes no configuration file, it
    does not call [extract_loads], and it never runs [SU2_SOL]. *)
Theorem multi_events_only ext wkdir w r w' :
  run_SU2_multi ext wkdir w = (r, w') →
  ∃ t dirs,
    trace w' = trace w ++ t
    ∧ (∀ entries, nodes w !! listing_key w wkdir = Some (Dir entries) →
                  dirs = case_dirs entries)
    ∧ Forall (multi_event wkdir dirs) t
    ∧ ∀ config_path dir, Exec "SU2_SOL" config_path dir ∉ t.
Proof.
  intros Hrun.
  assert (∃ t dirs,
            trace w' = trace w ++ t
            ∧ (∀ entries, nodes w !! listing_key w wkdir = Some (Dir entries) →
                          dirs = case_dirs entries)
            ∧ Forall (multi_event wkdir dirs) t) as (t & dirs & Ht & Hdirs & Hall).
  { apply multi_inv in Hrun
      as [(_ & -> & _) | [(_ & -> & _ & Hnone)
        | (entries & _ & Hdir & [(_ & _ & ->) | (_ & r1 & Hloop & _)])]].
    - exists [], (match nodes w !! listing_key w wkdir with
                  | Some (Dir entries) => case_dirs entries
                  | _ => []
                  end).
      rewrite app_nil_r. split; [done|]. split; [|done].
      intros entries Hdir. by rewrite Hdir.
    - exists [Chdir wkdir], []. split; [done|].
      split; [|apply Forall_singleton, event_chdir_wkdir].
      intros entries Hdir. by destruct (Hnone entries).
    - exists [Chdir wkdir], (case_dirs entries). split; [done|].
      split; [intros ? ?; congruence|]. apply Forall_singleton, event_chdir_wkdir.
    - apply (for_cases_events _ _ _ (case_dirs entries)) in Hloop
        as (t & Ht & Hall); [|done].
      rewrite trace_entered in Ht.
      exists ([Chdir wkdir] ++ t), (case_dirs entries).
      split; [by rewrite Ht, <- app_assoc|]. split; [intros ? ?; congruence|].
      apply Forall_app. split; [apply Forall_singleton, event_chdir_wkdir | done]. }
  exists t, dirs. split; [done|]. split; [done|]. split; [done|].
  intros config_path dir Hin.
  rewrite Forall_forall in Hall. apply Hall in Hin. inversion Hin.
Qed.

Lemma multi_events_only_witness :
  ∃ t dirs,
    trace (run_SU2_multi Demo.quiet "/w" Demo.w0).2 = trace Demo.w0 ++ t
    ∧ (∀ entries, nodes Demo.w0 !! listing_key Demo.w0 "/w" = Some (Dir entries) →
                  dirs = case_dirs entries)
    ∧ Forall (multi_event "/w" dirs) t
    ∧ ∀ config_path dir, Exec "SU2_SOL" config_path dir ∉ t.
Proof.
  apply (multi_events_only Demo.quiet "/w" Demo.w0
           (run_SU2_multi Demo.quiet "/w" Demo.w0).1).
  apply surjective_pairing.
Defined.

Lemma cfd_runs_app t1 t2 : cfd_runs (t1 ++ t2) = cfd_runs t1 ++ cfd_runs t2.
Proof. apply List.filter_app. Qed.

Lemma cfd_runs_def_events config_dir files :
  cfd_runs (def_events config_dir files) = [].
Proof. unfold def_events. by repeat destruct (bool_decide _). Qed.

Lemma for_cases_cfd_runs ext wkdir dirs v w v' w' :
  for_ dirs (run_case ext wkdir) v w = (Ok v', w') →
  ∃ t, trace w' = trace w ++ t
       ∧ cfd_runs t = (λ dir, cfd_event (path_join wkdir dir)) <$> dirs.
Proof.
  revert v w. induction dirs as [|dir dirs IH]; intros v w; cbn [for_].
  - intros [= <- <-]. exists []. by rewrite app_nil_r.
  - rewrite bind_unfold.
    destruct (run_case ext wkdir dir v w) as [[v1|e] w1] eqn:Hcase; [|done].
    apply run_case_cases in Hcase. cbv zeta in Hcase.
    destruct Hcase as [_ [([] & _) | [([] & _)
      | (files & _ & Hdir & [([] & _) | [(_ & [=] & _) | (Hin & back & Ht & Hback)]])]]].
    destruct Hback as [[_ []] | (-> & _)].
    intros (t & Ht' & Hcfd)%IH.
    eexists. split; [by rewrite Ht', Ht, <- !app_assoc|].
    rewrite !cfd_runs_app, cfd_runs_def_events, Hcfd. reflexivity.
Qed.

(** X6. When [run_SU2_multi] returns normally it has run [SU2_CFD] exactly
    once for each case directory, on the ["ConfigCFD.cfg"] of the directory
    and in the order of the case directories. *)
Theorem multi_one_cfd_per_case ext wkdir w entries w' :
  nodes w !! listing_key w wkdir = Some (Dir entries) →
  run_SU2_multi ext wkdir w = (Ok tt, w') →
  ∃ t, trace w' = trace w ++ t
       ∧ cfd_runs t
         = (λ dir, Exec "SU2_CFD" (path_join (path_join wkdir dir) "ConfigCFD.cfg")
                     (path_join wkdir dir)) <$> case_dirs entries.
Proof.
  intros Hls Hrun.
  apply multi_inv in Hrun
    as [([] & _) | [([] & _)
      | (entries' & _ & Hls' & [(_ & [=] & _) | (_ & r1 & Hloop & Hr)])]].
  assert (entries' = entries) as -> by congruence.
  destruct r1 as [v1|e]; [|discriminate Hr].
  apply for_cases_cfd_runs in Hloop as (t & Ht & Hcfd).
  rewrite trace_entered in Ht.
  exists ([Chdir wkdir] ++ t). split; [by rewrite Ht, <- app_assoc|].
  by rewrite cfd_runs_app.
Qed.

Lemma multi_one_cfd_per_case_witness :
  nodes Demo.w0 !! listing_key Demo.w0 "/w2" = Some (Dir ["Case0"])
  ∧ ∃ t, trace (run_SU2_multi Demo.quiet "/w2" Demo.w0).2 = trace Demo.w0 ++ t
       ∧ cfd_runs t
         = (λ dir, Exec "SU2_CFD" (path_join (path_join "/w2" dir) "ConfigCFD.cfg")
                     (path_join "/w2" dir)) <$> case_dirs ["Case0"].
Proof.
  split; [vm_compute; reflexivity|].
  apply (multi_one_cfd_per_case Demo.quiet "/w2" Demo.w0 ["Case0"]).
  - vm_compute; reflexivity.
  - vm_compute; reflexivity.
Defined.

Lemma ready_after_soft ext names wkdir dirs soft config_path dir w :
  keeps_ready ext names wkdir dirs →
  ready names wkdir dirs (nodes w) →
  ready names wkdir dirs (nodes (after_soft ext soft config_path dir w)).
Proof. intros Hkeeps Hready. by apply Hkeeps. Qed.

Lemma ready_after_defs ext names wkdir dirs config_dir files w :
  keeps_ready ext names wkdir dirs →
  ready names wkdir dirs (nodes w) →
  ready names wkdir dirs (nodes (after_defs ext config_dir files w)).
Proof.
  intros Hkeeps Hready. unfold after_defs, after_def.
  repeat destruct (bool_decide _); repeat apply ready_after_soft; done.
Qed.

Lemma for_cases_ready ext names wkdir dirs all v w :
  String.prefix "/" wkdir = true →
  canon w = names →
  keeps_ready ext names wkdir all →
  ready names wkdir all (nodes w) →
  (∀ d, d ∈ dirs → d ∈ all) →
  ∃ v' w', for_ dirs (run_case ext wkdir) v w = (Ok v', w').
Proof.
  intros Habs Hnames Hkeeps. revert v w Hnames.
  induction dirs as [|dir dirs IH]; intros v w Hnames Hready Hsub; cbn [for_].
  - by eexists _, _.
  - destruct (Hready) as [_ Hcases].
    destruct (Hcases dir) as (files & Hdir & Hnd & Hin); [apply Hsub; left|].
    assert (String.prefix "/" (path_join wkdir dir) = true) as Habs'
      by by apply path_join_abs.
    assert (is_dir (nodes w) (resolve w (path_join wkdir dir))) as Hisdir.
    { exists files. by rewrite (resolve_abs _ _ Habs'), Hnames. }
    assert (nodes w !! listing_key w (path_join wkdir dir) = Some (Dir files))
      as Hls by by rewrite (listing_key_abs _ _ Habs'), Hnames.
    destruct (scan_NoDup (path_join wkdir dir) files (reset_flags v)
                (entered w (path_join wkdir dir))
                Hnd) as [v1 Hscan]; [intros; apply flag_reset|].
    rewrite bind_unfold, (run_case_scanned _ _ _ _ _ _ _ _ Hisdir Hls Hscan).
    rewrite bool_decide_true by done.
    match goal with |- context [(os_chdir wkdir ≫= _) ?x] => set (w1 := x) end.
    assert (ready names wkdir all (nodes w1)) as Hready1.
    { unfold w1. by apply ready_after_soft, ready_after_defs. }
    assert (canon w1 = names) as Hnames1.
    { unfold w1. cbn [canon after_soft emit set_nodes].
      by rewrite canon_after_defs. }
    destruct (Hready1) as [[entries Hwk] _].
    rewrite <- Hnames1, <- (resolve_abs w1 _ Habs) in Hwk.
    rewrite (chdir_bind _ _ _ _ Hwk). cbv beta iota.
    apply IH; [done | done |]. intros d Hd. apply Hsub. by right.
Qed.

(** X7. If the working directory, given by an absolute path, has case
    directories, each of them a directory that lists ["ConfigCFD.cfg"], and
    the executables leave it so, then [run_SU2_multi] returns normally. *)
Theorem multi_returns ext wkdir w entries :
  String.prefix "/" wkdir = true →
  nodes w !! resolve w wkdir = Some (Dir entries) →
  case_dirs entries ≠ [] →
  ready (canon w) wkdir (case_dirs entries) (nodes w) →
  keeps_ready ext (canon w) wkdir (case_dirs entries) →
  ∃ w', run_SU2_multi ext wkdir w = (Ok tt, w').
Proof.
  intros Habs Hdir Hcases Hready Hkeeps.
  assert (nodes w !! listing_key w wkdir = Some (Dir entries)) as Hls.
  { rewrite (listing_key_abs _ _ Habs). by rewrite (resolve_abs _ _ Habs) in Hdir. }
  rewrite (multi_in_dir _ _ _ entries) by (by eexists || done).
  rewrite bool_decide_false by done. cbn [raise_if]. rewrite ret_bind.
  destruct (for_cases_ready ext (canon w) wkdir (case_dirs entries) (case_dirs entries)
              no_locals (entered w wkdir))
    as (v' & w' & Hloop); [done..|].
  exists w'. by rewrite (bind_Ok _ _ _ _ _ Hloop).
Qed.

Lemma multi_returns_witness :
  String.prefix "/" "/w2" = true
  ∧ nodes Demo.w0 !! resolve Demo.w0 "/w2" = Some (Dir ["Case0"])
  ∧ ∃ w', run_SU2_multi Demo.quiet "/w2" Demo.w0 = (Ok tt, w').
Proof.
  split; [reflexivity|]. split; [vm_compute; reflexivity|].
  apply (multi_returns Demo.quiet "/w2" Demo.w0 ["Case0"]).
  - reflexivity.
  - vm_compute; reflexivity.
  - vm_compute. discriminate.
  - split; [by exists ["Case0"]|].
    intros dir Hdir. change (case_dirs ["Case0"]) with ["Case0"] in Hdir.
    apply list_elem_of_singleton in Hdir as ->.
    exists ["ConfigCFD.cfg"]. split; [vm_compute; reflexivity|].
    split; [apply NoDup_singleton | by left].
  - by intros soft config_path dir cwd fs Hready.
Defined.

Lemma scan_found_again config_dir files v w name :
  flag name v = true → name ∈ files →
  ∃ e, for_ files (scan_file config_dir) v w = (Raise e, w).
Proof.
  revert v. induction files as [|file files IH]; intros v Hflag Hin; cbn [for_].
  { by apply elem_of_nil in Hin. }
  rewrite bind_unfold.
  destruct (scan_file config_dir file v w) as [r w1] eqn:Hfile.
  apply scan_file_inv in Hfile as [-> Hfile].
  destruct Hfile as [[Hout ->] | [(_ & _ & ->) | (_ & Hnew & v2 & -> & Hflags & _)]].
  - apply IH; [done|]. apply elem_of_cons in Hin as [->|]; [|done].
    unfold config_names in Hout. rewrite !not_elem_of_cons in Hout.
    destruct Hout as (? & ? & ? & ? & _).
    unfold flag in Hflag. by repeat case_decide.
  - eauto.
  - assert (name ≠ file) as Hne by (intros ->; congruence).
    apply IH.
    + rewrite Hflags. by rewrite decide_False.
    + by apply elem_of_cons in Hin as [|].
Qed.

Lemma scan_twice config_dir first name rest v w :
  name ∈ config_names → name ∈ rest →
  ∃ e, for_ (first ++ name :: rest) (scan_file config_dir) v w = (Raise e, w).
Proof.
  intros Hname Hrest. revert v.
  induction first as [|file first IH]; intros v; cbn [for_ app];
    rewrite bind_unfold;
    match goal with |- context [scan_file config_dir ?f v w] =>
      destruct (scan_file config_dir f v w) as [r w1] eqn:Hfile end;
    apply scan_file_inv in Hfile as [-> Hfile].
  - destruct Hfile as [[Hout ->] | [(_ & _ & ->) | (_ & _ & v2 & -> & Hflags & _)]];
      [done | eauto |].
    apply (scan_found_again _ _ _ _ name); [|done].
    rewrite Hflags. by rewrite decide_True.
  - destruct Hfile as [[_ ->] | [(_ & _ & ->) | (_ & _ & v2 & -> & _)]]; eauto.
Qed.

(** X8. When the listing of a case directory holds one of the four
    configuration names twice, [run_SU2_multi] raises the [ValueError] of a
    configuration file found more than once as soon as it has entered the
    directory: no executable is run for it. *)
Theorem case_with_name_twice ext wkdir dir v w first name rest :
  is_dir (nodes w) (resolve w (path_join wkdir dir)) →
  nodes w !! listing_key w (path_join wkdir dir)
  = Some (Dir (first ++ name :: rest)) →
  name ∈ config_names →
  name ∈ rest →
  ∃ again, again ∈ config_names
    ∧ run_case ext wkdir dir v w
      = (Raise (more_than_one again), entered w (path_join wkdir dir)).
Proof.
  intros Hisdir Hdir Hname Hrest.
  destruct (scan_twice (path_join wkdir dir) first name rest (reset_flags v)
              (entered w (path_join wkdir dir))
              Hname Hrest) as [e Hscan].
  rewrite (run_case_scan_raise _ _ _ _ _ _ _ _ Hisdir Hdir Hscan).
  apply scan_Raise in Hscan as (again & Hagain & _ & ->). eauto.
Qed.

Lemma case_with_name_twice_witness :
  ∃ again, again ∈ config_names
    ∧ run_case Demo.quiet "/w3" "Case0" no_locals Demo.w3
      = (Raise (more_than_one again), entered Demo.w3 (path_join "/w3" "Case0")).
Proof.
  apply (case_with_name_twice Demo.quiet "/w3" "Case0" no_locals Demo.w3
           ["mesh.su2"] "ConfigDEF.cfg" ["ConfigCFD.cfg"; "ConfigDEF.cfg"]).
  - eexists. vm_compute; reflexivity.
  - vm_compute; reflexivity.
  - unfold config_names. rewrite !elem_of_cons. auto.
  - rewrite !elem_of_cons. auto.
Defined.

(** X9. For a listing without repetition, as [os.listdir] returns them, the
    four tests for a configuration file found more than once never fire: the
    body of the loop raises no such [ValueError]. *)
Theorem case_without_repetition ext wkdir dir v w files r w' :
  nodes w !! listing_key w (path_join wkdir dir) = Some (Dir files) →
  NoDup files →
  run_case ext wkdir dir v w = (r, w') →
  ∀ name, r ≠ Raise (more_than_one name).
Proof.
  intros Hdir Hnd Hrun name ->.
  destruct (nodes w !! resolve w (path_join wkdir dir)) as [[ents|cfg]|] eqn:Hent.
  2,3: destruct (run_case_no_dir ext wkdir dir v w) as (e1 & He1 & He);
         [by rewrite Hent|];
         rewrite He1 in Hrun; unfold more_than_one in Hrun;
         destruct He as [-> | ->]; discriminate Hrun.
  assert (is_dir (nodes w) (resolve w (path_join wkdir dir))) as Hisdir
    by by exists ents.
  destruct (scan_NoDup (path_join wkdir dir) files (reset_flags v)
              (entered w (path_join wkdir dir))
              Hnd) as [v1 Hscan]; [intros; apply flag_reset|].
  rewrite (run_case_scanned _ _ _ _ _ _ _ _ Hisdir Hdir Hscan) in Hrun.
  destruct (bool_decide ("ConfigCFD.cfg" ∈ files)).
  - rewrite bind_unfold in Hrun.
    destruct (os_chdir wkdir _) as [[[]|e] w1] eqn:Hback; [done|].
    apply chdir_Raise in Hback as [_ [-> | ->]]; discriminate Hrun.
  - discriminate Hrun.
Qed.

Lemma case_without_repetition_witness :
  nodes Demo.w0 !! listing_key Demo.w0 (path_join "/w" "Case01_alt0_mach0.5")
  = Some (Dir ["ConfigDEF_rot.cfg"; "ConfigDEF.cfg"])
  ∧ ∀ name,
      (run_case Demo.quiet "/w" "Case01_alt0_mach0.5" no_locals Demo.w0).1
      ≠ Raise (more_than_one name).
Proof.
  split; [vm_compute; reflexivity|].
  apply (case_without_repetition Demo.quiet "/w" "Case01_alt0_mach0.5" no_locals
           Demo.w0 ["ConfigDEF_rot.cfg"; "ConfigDEF.cfg"] _
           (run_case Demo.quiet "/w" "Case01_alt0_mach0.5" no_locals Demo.w0).2).
  - vm_compute; reflexivity.
  - apply NoDup_cons. split; [by intros [=]%list_elem_of_singleton|].
    apply NoDup_singleton.
  - apply surjective_pairing.
Defined.

(** ** The options of the entry point *)

Lemma argv_get_bind {B} (argv : list string) i a (f : string → M B) w :
  argv !! i = Some a → (argv_get argv i ≫= f) w = f a w.
Proof. intros H. unfold argv_get. by rewrite H. Qed.

Lemma argv_get_none {B} (argv : list string) i (f : string → M B) w :
  argv !! i = None → (argv_get argv i ≫= f) w = (Raise IndexError, w).
Proof. intros H. unfold argv_get. by rewrite H. Qed.

Ltac main_start :=
  unfold main; cbv zeta;
  rewrite log_info_bind, open_tixi_bind;
  rewrite bool_decide_true by (cbn; lia);
  rewrite ?bind_assoc;
  erewrite argv_get_bind by reflexivity.

(** X10. Started with an option other than [-s], [-m] and [-f], the program
    runs no executable. *)
Theorem main_runs_no_executable ext prog option rest w r w' :
  option ∉ ["-s"; "-m"; "-f"] →
  main ext (prog :: option :: rest) w = (r, w') →
  ∃ t, trace w' = trace w ++ t ∧ executables t = [].
Proof.
  rewrite !not_elem_of_cons. intros (Hs & Hm & Hf & _).
  main_start.
  destruct (decide (option = "-c")) as [->|Hc].
  { rewrite ?bind_assoc, get_wkdir_bind, ?bind_assoc, generate_bind.
    intros [= <- <-]. eexists. cbn [trace emit set_nodes].
    split; [by rewrite <- !app_assoc | done]. }
  rewrite (decide_False (P := option = "-s")) by done.
  rewrite (decide_False (P := option = "-m")) by done.
  rewrite (decide_False (P := option = "-f")) by done.
  destruct (decide (option = "-r")) as [->|Hr].
  { destruct rest as [|dir rest].
    - rewrite ?bind_assoc. erewrite argv_get_none by reflexivity.
      intros [= <- <-]. eexists. cbn [trace emit].
      split; [reflexivity | done].
    - rewrite ?bind_assoc. erewrite argv_get_bind by reflexivity.
      cbv zeta. rewrite results_bind.
      intros [= <- <-]. eexists. cbn [trace emit set_nodes].
      split; [by rewrite <- !app_assoc | done]. }
  intros [= <- <-]. eexists. cbn [trace emit].
      split; [reflexivity | done].
Qed.

Lemma main_runs_no_executable_witness :
  ∃ t, trace (main Demo.quiet ["su2run.py"; "-c"] Demo.w0).2 = trace Demo.w0 ++ t
       ∧ executables t = [].
Proof.
  apply (main_runs_no_executable Demo.quiet "su2run.py" "-c" [] Demo.w0
           (main Demo.quiet ["su2run.py"; "-c"] Demo.w0).1).
  - rewrite !not_elem_of_cons. repeat split; try done. apply not_elem_of_nil.
  - apply surjective_pairing.
Defined.

(** X11. Started with [-s], [-m], [-f] or [-r] and no directory after it, the
    program raises [IndexError] once it has opened the CPACS file: it runs
    nothing, and the line of the end is not logged. *)
Theorem main_option_without_directory ext prog option w :
  option ∈ ["-s"; "-m"; "-f"; "-r"] →
  ∃ w', main ext [prog; option] w = (Raise IndexError, w')
        ∧ trace w'
          = trace w ++ [OpenTixi (path_join (path_join (MODULE_DIR ext) "ToolInput")
                                    "ToolInput.xml")]
        ∧ log w' = log w ++ ["----- Start of " +:+ FILE_BASENAME ext +:+ " -----"]
        ∧ nodes w' = nodes w ∧ cwd w' = cwd w ∧ stdout w' = stdout w.
Proof.
  rewrite !elem_of_cons, elem_of_nil.
  intros [-> | [-> | [-> | [-> | []]]]]; main_start; cbn [decide];
    repeat (rewrite decide_False by done);
    rewrite ?decide_True by done;
    rewrite ?bind_assoc; (erewrite argv_get_none by reflexivity);
    eexists; (split; [reflexivity|]); done.
Qed.

Lemma main_option_without_directory_witness :
  ∃ w', main Demo.quiet ["su2run.py"; "-m"] Demo.w0 = (Raise IndexError, w')
        ∧ trace w'
          = trace Demo.w0
            ++ [OpenTixi (path_join (path_join (MODULE_DIR Demo.quiet) "ToolInput")
                            "ToolInput.xml")]
        ∧ log w' = log Demo.w0
                   ++ ["----- Start of " +:+ FILE_BASENAME Demo.quiet +:+ " -----"]
        ∧ nodes w' = nodes Demo.w0 ∧ cwd w' = cwd Demo.w0
        ∧ stdout w' = stdout Demo.w0.
Proof.
  apply (main_option_without_directory Demo.quiet "su2run.py" "-m" Demo.w0).
  rewrite !elem_of_cons. auto.
Defined.

(** X12. Started with an option it does not know, the program prints that the
    argument is not a valid option and returns normally: it has opened the
    CPACS file and logged its two lines, and has done nothing else. *)
Theorem main_unknown_option ext prog option rest w :
  option ∉ ["-c"; "-s"; "-m"; "-f"; "-r"] →
  ∃ w', main ext (prog :: option :: rest) w = (Ok tt, w')
        ∧ stdout w' = stdout w ++ ["This arugment is not a valid option!"]
        ∧ trace w'
          = trace w ++ [OpenTixi (path_join (path_join (MODULE_DIR ext) "ToolInput")
                                    "ToolInput.xml")]
        ∧ log w' = log w ++ ["----- Start of " +:+ FILE_BASENAME ext +:+ " -----";
                             "----- End of " +:+ FILE_BASENAME ext +:+ " -----"]
        ∧ nodes w' = nodes w ∧ cwd w' = cwd w.
Proof.
  rewrite !not_elem_of_cons. intros (Hc & Hs & Hm & Hf & Hr & _).
  main_start. repeat (rewrite decide_False by done).
  eexists. split; [reflexivity|]. cbn [stdout trace log nodes cwd emit].
  by rewrite <- !app_assoc.
Qed.

Lemma main_unknown_option_witness :
  ∃ w', main Demo.quiet ["su2run.py"; "--help"] Demo.w0 = (Ok tt, w')
        ∧ stdout w' = stdout Demo.w0 ++ ["This arugment is not a valid option!"]
        ∧ trace w'
          = trace Demo.w0
            ++ [OpenTixi (path_join (path_join (MODULE_DIR Demo.quiet) "ToolInput")
                            "ToolInput.xml")]
        ∧ log w' = log Demo.w0
                   ++ ["----- Start of " +:+ FILE_BASENAME Demo.quiet +:+ " -----";
                       "----- End of " +:+ FILE_BASENAME Demo.quiet +:+ " -----"]
        ∧ nodes w' = nodes Demo.w0 ∧ cwd w' = cwd Demo.w0.
Proof.
  apply (main_unknown_option Demo.quiet "su2run.py" "--help" [] Demo.w0).
  rewrite !not_elem_of_cons. repeat split; try done. apply not_elem_of_nil.
Defined.

(** ** The configurations of the FSI run *)

(** X13. The modifications [run_SU2_fsi] makes for [SU2_DEF] and for
    [SU2_CFD] touch different keys and set them to constants: each is
    idempotent, and the two commute.  A configuration that was generated
    once is therefore not changed by being generated again. *)
Theorem config_updates_compose (cfg : config) :
  cfg_for_def (cfg_for_def cfg) = cfg_for_def cfg
  ∧ cfg_for_cfd (cfg_for_cfd cfg) = cfg_for_cfd cfg
  ∧ cfg_for_def (cfg_for_cfd cfg) = cfg_for_cfd (cfg_for_def cfg).
Proof.
  unfold cfg_for_def, cfg_for_cfd.
  repeat split; apply map_eq; intros k; rewrite !lookup_insert;
    repeat case_decide; simplify_eq; done.
Qed.

(** X14. With the option [-f] and a directory, the configuration the FSI run
    reads is the ["ConfigCFD.cfg"] of the working directory; when this is
    not the file the generated ["ConfigDEF.cfg"] is written to, both
    generated files come from the configuration of entry, ["ConfigDEF.cfg"]
    with the five keys of the deformation set and ["ConfigCFD.cfg"], the file
    that was read, rewritten with the mesh file name set. *)
Theorem main_fsi_option ext prog dir rest w entries cfg r w' :
  let wkdir := path_join (MODULE_DIR ext) dir in
  nodes w !! resolve w wkdir = Some (Dir entries) →
  nodes w !! from_dir w wkdir (path_join wkdir "ConfigCFD.cfg") = Some (File cfg) →
  ¬ is_dir (nodes w) (from_dir w wkdir (path_join wkdir "ConfigDEF.cfg")) →
  from_dir w wkdir (path_join wkdir "ConfigCFD.cfg")
  ≠ from_dir w wkdir (path_join wkdir "ConfigDEF.cfg") →
  main ext (prog :: "-f" :: dir :: rest) w = (r, w') →
  ∃ t, trace w' = trace w ++ t
       ∧ writes t
         = [ (path_join wkdir "ConfigDEF.cfg", cfg_for_def cfg);
             (path_join wkdir "ConfigCFD.cfg", cfg_for_cfd cfg) ].
Proof.
  intros wkdir Hdir Hcfg Hdef Hkeys.
  main_start. cbn [decide]. repeat (rewrite decide_False by done).
  rewrite decide_True by done.
  rewrite ?bind_assoc. erewrite argv_get_bind by reflexivity. cbv zeta.
  fold wkdir. rewrite bind_unfold.
  match goal with |- context [run_SU2_fsi ext _ wkdir ?x] => set (w1 := x) end.
  destruct (run_SU2_fsi ext (path_join wkdir "ConfigCFD.cfg") wkdir w1)
    as [r2 w2] eqn:Hfsi.
  apply (fsi_cases _ _ _ _ entries) in Hfsi; [|exact Hdir]. cbv zeta in Hfsi.
  change (nodes w1) with (nodes w) in Hfsi.
  change (from_dir w1) with (from_dir w) in Hfsi.
  change (fsi_events w1) with (fsi_events w) in Hfsi.
  change (trace w1) with (trace w ++ [OpenTixi (cpacs_path ext)]) in Hfsi.
  destruct Hfsi as [(_ & _ & Hno) | (cfg' & Hcfg' & [(_ & _ & Hd) | [(_ & _ & Hd) | (back & Ht & Hback)]])].
  - by destruct (Hno cfg).
  - done.
  - destruct Hd as [entries' Hd]. congruence.
  - assert (cfg' = cfg) as -> by congruence.
    assert (second_read w (path_join wkdir "ConfigCFD.cfg") wkdir cfg = cfg) as Hsecond.
    { unfold second_read. by rewrite decide_False. }
    assert (trace w2 = trace w ++ [OpenTixi (cpacs_path ext)]
                       ++ fsi_events w (path_join wkdir "ConfigCFD.cfg") wkdir cfg ++ back
            ∧ writes ([OpenTixi (cpacs_path ext)]
                      ++ fsi_events w (path_join wkdir "ConfigCFD.cfg") wkdir cfg ++ back)
              = [ (path_join wkdir "ConfigDEF.cfg", cfg_for_def cfg);
                  (path_join wkdir "ConfigCFD.cfg", cfg_for_cfd cfg) ])
      as [Ht2 Hwrites].
    { split; [by rewrite Ht, <- !app_assoc|].
      unfold writes, fsi_events. rewrite !omap_app, Hsecond.
      destruct Hback as [[-> _] | (-> & _)]; reflexivity. }
    destruct r2 as [[]|e]; intros [= <- <-]; eexists; split; done.
Qed.

Lemma main_fsi_option_witness :
  from_dir Demo.w0 "/w" "/w/ConfigCFD.cfg" ≠ from_dir Demo.w0 "/w" "/w/ConfigDEF.cfg"
  ∧ ∃ t, trace (main Demo.in_root ["su2run.py"; "-f"; "w"] Demo.w0).2
         = trace Demo.w0 ++ t
       ∧ writes t
         = [ ("/w/ConfigDEF.cfg", cfg_for_def Demo.cfg0);
             ("/w/ConfigCFD.cfg", cfg_for_cfd Demo.cfg0) ].
Proof.
  split; [vm_compute; discriminate|].
  apply (main_fsi_option Demo.in_root "su2run.py" "w" [] Demo.w0
           ["Case00_alt0_mach0.3"; "notes.txt"; "Case01_alt0_mach0.5"] Demo.cfg0
           (main Demo.in_root ["su2run.py"; "-f"; "w"] Demo.w0).1).
  - vm_compute; reflexivity.
  - vm_compute; reflexivity.
  - intros [entries Hd]. vm_compute in Hd. discriminate.
  - vm_compute; discriminate.
  - apply surjective_pairing.
Defined.

(** X16. When [config_path] names, under whatever spelling, the file the
    generated ["ConfigDEF.cfg"] is written to, the second read of
    [run_SU2_fsi] gets the configuration just written there: the generated
    ["ConfigCFD.cfg"] has the five keys of the deformation as well as the
    mesh file name. *)
Theorem fsi_reads_back_generated ext config_path wkdir w entries cfg r w' :
  nodes w !! resolve w wkdir = Some (Dir entries) →
  nodes w !! from_dir w wkdir config_path = Some (File cfg) →
  ¬ is_dir (nodes w) (from_dir w wkdir (path_join wkdir "ConfigCFD.cfg")) →
  from_dir w wkdir config_path = from_dir w wkdir (path_join wkdir "ConfigDEF.cfg") →
  run_SU2_fsi ext config_path wkdir w = (r, w') →
  ∃ t, trace w' = trace w ++ t
       ∧ writes t
         = [ (path_join wkdir "ConfigDEF.cfg", cfg_for_def cfg);
             (path_join wkdir "ConfigCFD.cfg", cfg_for_cfd (cfg_for_def cfg)) ].
Proof.
  intros Hdir Hcfg Hcfd Hsame Hrun.
  apply (fsi_cases _ _ _ _ _ _ _ Hdir) in Hrun
    as [(_ & _ & Hno) | (cfg' & Hcfg' & [(_ & _ & Hd) | [(_ & _ & Hd) | (back & Ht & Hback)]])].
  - by destruct (Hno cfg).
  - destruct Hd as [entries' Hd]. congruence.
  - done.
  - assert (cfg' = cfg) as -> by congruence.
    exists (fsi_events w config_path wkdir cfg ++ back). split; [done|].
    unfold writes, fsi_events, second_read. rewrite omap_app, decide_True by done.
    destruct Hback as [[-> _] | (-> & _)]; reflexivity.
Qed.

Lemma fsi_reads_back_generated_witness :
  "/w/./ConfigDEF.cfg" ≠ path_join "/w" "ConfigDEF.cfg"
  ∧ from_dir Demo.w0 "/w" "/w/./ConfigDEF.cfg"
    = from_dir Demo.w0 "/w" (path_join "/w" "ConfigDEF.cfg")
  ∧ ∃ t, trace (run_SU2_fsi Demo.quiet "/w/./ConfigDEF.cfg" "/w" Demo.w0).2
         = trace Demo.w0 ++ t
       ∧ writes t
         = [ (path_join "/w" "ConfigDEF.cfg", cfg_for_def Demo.cfg0);
             (path_join "/w" "ConfigCFD.cfg", cfg_for_cfd (cfg_for_def Demo.cfg0)) ].
Proof.
  split; [vm_compute; discriminate|]. split; [vm_compute; reflexivity|].
  apply (fsi_reads_back_generated Demo.quiet "/w/./ConfigDEF.cfg" "/w" Demo.w0
           ["Case00_alt0_mach0.3"; "notes.txt"; "Case01_alt0_mach0.5"] Demo.cfg0
           (run_SU2_fsi Demo.quiet "/w/./ConfigDEF.cfg" "/w" Demo.w0).1).
  - vm_compute; reflexivity.
  - vm_compute; reflexivity.
  - intros [entries Hd]. vm_compute in Hd. discriminate.
  - vm_compute; reflexivity.
  - apply surjective_pairing.
Defined.
